(** * OCR service: extraction pipeline, retention store and batch coordinator

    A shallow embedding of the Python service
    ([app/services/ocr_service.py], [app/services/file_service.py],
    [app/api/ocr_routes.py], [app/models/schemas.py], [app/core/config.py])
    together with the properties its specification states about it.

    Conventions of the embedding.
    - A Python [str] is a [string]; every [ascii] stands for one code point
      in the range 0..255 (the Latin-1 block), and [isspace] and [lower]
      are the Python tables restricted to that range.
    - A Python [bytes] value is a [list byte].
    - A Python [int] is a [Z]; a Python [float] is an IEEE 754 binary64
      value, computed with the reference operations of [SpecFloat].
    - A function that may raise returns a [result]; code with side effects
      (the upload directory, the calls made to the OCR engine, the job
      counter behind [uuid4] and the clock) threads a [World].
    - The third-party libraries (pypdfium2, Pillow, pytesseract,
      python-docx, hashlib) and the operating system are parameters of the
      development, with the few laws of theirs that the properties use.
    - [pathlib.Path] is the POSIX flavour: only [/] separates components. *)

From Stdlib Require Import ZArith Ascii String Strings.Byte Floats.SpecFloat.
From stdpp Require Import gmap strings list pretty.

Local Open Scope Z_scope.
Set Warnings "-clear-no-such-hyp".

(** ** Python string primitives *)

Module Py.

Definition ord (c : ascii) : Z := Z.of_N (N_of_ascii c).

Definition in_range (lo hi : Z) (c : ascii) : bool :=
  (lo <=? ord c) && (ord c <=? hi).

(** [str.isspace] on one character: TAB LF VT FF CR, FS GS RS US, SPACE,
    NEL (0x85) and NBSP (0xA0). *)
Definition isspace (c : ascii) : bool :=
  in_range 9 13 c || in_range 28 32 c
  || bool_decide (ord c = 133) || bool_decide (ord c = 160).

(** [str.lower] on one character: A-Z, and the accented capitals
    0xC0-0xDE without the multiplication sign 0xD7, move up by 32. *)
Definition lower_char (c : ascii) : ascii :=
  if in_range 65 90 c
     || (in_range 192 222 c && negb (bool_decide (ord c = 215)))
  then ascii_of_N (N_of_ascii c + 32)
  else c.

Fixpoint lower (s : string) : string :=
  match s with
  | EmptyString => EmptyString
  | String c t => String (lower_char c) (lower t)
  end.

Fixpoint lstrip (s : string) : string :=
  match s with
  | EmptyString => EmptyString
  | String c t => if isspace c then lstrip t else s
  end.

(** Trailing whitespace is dropped from the right: a whitespace character
    goes exactly when everything after it went. *)
Fixpoint rstrip (s : string) : string :=
  match s with
  | EmptyString => EmptyString
  | String c t =>
      match rstrip t with
      | EmptyString => if isspace c then EmptyString else String c EmptyString
      | t' => String c t'
      end
  end.

(** [s.strip()] *)
Definition strip (s : string) : string := rstrip (lstrip s).

(** [sep.join(parts)] *)
Fixpoint join (sep : string) (parts : list string) : string :=
  match parts with
  | [] => ""
  | [p] => p
  | p :: rest => p +:+ sep +:+ join sep rest
  end.

(** Every character of [s] satisfies [p]. *)
Fixpoint all_chars (p : ascii → bool) (s : string) : bool :=
  match s with
  | EmptyString => true
  | String c t => p c && all_chars p t
  end.

(** [c in s] for a one-character needle *)
Fixpoint contains (c : ascii) (s : string) : bool :=
  match s with
  | EmptyString => false
  | String d t => bool_decide (d = c) || contains c t
  end.

(** [s.rsplit(sep, 1)[-1]]: what follows the last [sep]; the whole string
    when there is no [sep]. *)
Fixpoint rsplit1_last (sep : ascii) (s : string) : string :=
  match s with
  | EmptyString => EmptyString
  | String c t =>
      if contains sep t then rsplit1_last sep t
      else if bool_decide (c = sep) then t
      else s
  end.

(** [s.split(sep)] for a one-character separator: never an empty list. *)
Fixpoint split (sep : ascii) (s : string) : list string :=
  match s with
  | EmptyString => [EmptyString]
  | String c t =>
      if bool_decide (c = sep) then EmptyString :: split sep t
      else match split sep t with
           | h :: r => String c h :: r
           | [] => [String c EmptyString]
           end
  end.

(** [s.startswith(prefix)] *)
Fixpoint startswith (prefix s : string) : bool :=
  match prefix, s with
  | EmptyString, _ => true
  | String c p, String d t => bool_decide (c = d) && startswith p t
  | String _ _, EmptyString => false
  end.

(** [x or default] on strings: the empty string is falsy. *)
Definition str_or (x default : string) : string :=
  if bool_decide (x = "") then default else x.

(** [pathlib.PurePosixPath(p).name]: the path is cut at every [/], empty
    components and [.] components are dropped, and the name is the last
    component left, or the empty string. *)
Definition path_name (p : string) : string :=
  List.last (filter (λ part, part ≠ "" ∧ part ≠ ".") (split "/" p)) "".

(** The root of a POSIX path: two slashes for exactly two leading slashes,
    one slash for one leading slash or for three and more, nothing for a
    relative path. *)
Definition path_root (p : string) : string :=
  if startswith "//" p && negb (startswith "///" p) then "//"
  else if startswith "/" p then "/"
  else "".

(** The components that [pathlib] keeps of a path: those that are neither
    empty nor a single dot. *)
Definition path_parts (p : string) : list string :=
  filter (λ part, part ≠ "" ∧ part ≠ ".") (split "/" p).

(** [str(pathlib.PurePosixPath(dir) / name)]: an absolute [name] replaces
    [dir]; otherwise the components of both follow the root of [dir], joined
    by single slashes, and a path with no root and no component is written
    as a dot. *)
Definition path_join_str (dir name : string) : string :=
  let root := if startswith "/" name then path_root name else path_root dir in
  let parts := if startswith "/" name then path_parts name
               else path_parts dir ++ path_parts name in
  match parts with
  | [] => if bool_decide (root = "") then "." else root
  | _ :: _ => root +:+ join "/" parts
  end.

(** The line feed, and the blank-line separator made of two of them. *)
Definition LF : string := String "010" EmptyString.
Definition LFLF : string := LF +:+ LF.

(** [str(n)] for an integer *)
Definition str_int (n : Z) : string := pretty n.

End Py.

(** ** [app/services/file_service.py]: the filename sanitiser *)

(** The characters of the class [a-zA-Z0-9._ -]. *)
Definition safe_char (c : ascii) : bool :=
  Py.in_range 97 122 c || Py.in_range 65 90 c || Py.in_range 48 57 c
  || bool_decide (c = "."%char) || bool_decide (c = "_"%char)
  || bool_decide (c = " "%char) || bool_decide (c = "-"%char).

(** [re.sub(r"[^a-zA-Z0-9._ -]+", "_", name)]: scanning from the left, each
    maximal run of characters outside the class is replaced by one
    underscore. [in_run] tells that the previous character belonged to a run
    that has already been replaced. *)
Fixpoint sub_unsafe_runs (in_run : bool) (name : string) : string :=
  match name with
  | EmptyString => EmptyString
  | String c t =>
      if safe_char c then String c (sub_unsafe_runs false t)
      else if in_run then sub_unsafe_runs true t
      else String "_" (sub_unsafe_runs true t)
  end.

(** The state of the scan after [s]: inside a replaced run exactly when [s]
    ends with a character outside the class (or is empty, the scan having
    started inside one). *)
Fixpoint ends_in_run (in_run : bool) (s : string) : bool :=
  match s with
  | EmptyString => in_run
  | String c t => ends_in_run (negb (safe_char c)) t
  end.

(** [s] starts with a character outside the class. *)
Definition starts_unsafe (s : string) : bool :=
  match s with
  | EmptyString => false
  | String c _ => negb (safe_char c)
  end.

Definition sanitize_filename (filename : string) : string :=
  let name := Py.path_name filename in
  let name := Py.strip (sub_unsafe_runs false name) in
  Py.str_or name "document".

(** The reading of the specification: every character outside the class
    becomes an underscore of its own, and nothing else changes. *)
Fixpoint replace_each_unsafe (name : string) : string :=
  match name with
  | EmptyString => EmptyString
  | String c t =>
      String (if safe_char c then c else "_"%char) (replace_each_unsafe t)
  end.

Definition sanitize_filename_per_char (filename : string) : string :=
  Py.str_or (replace_each_unsafe (Py.path_name filename)) "document".

(** ** [app/api/ocr_routes.py]: [parse_bool] *)

Definition truthy_tokens : list string := ["1"; "true"; "yes"; "y"; "on"].

Definition parse_bool (val : option string) (default : bool) : bool :=
  match val with
  | None => default
  | Some val =>
      let v := Py.lower (Py.strip val) in
      bool_decide (v ∈ truthy_tokens)
  end.

(** ** The extension of a filename, as [process_file] computes it *)

Definition file_ext (filename : string) : string :=
  if Py.contains "." filename
  then Py.lower (Py.rsplit1_last "." filename)
  else "".

Definition image_exts : list string :=
  ["jpg"; "jpeg"; "png"; "bmp"; "tif"; "tiff"].

Definition supported_exts : list string := "pdf" :: image_exts ++ ["docx"].

(** ** Python floats: IEEE 754 binary64 *)

Module Float.

Definition prec : Z := 53.
Definition emax : Z := 1024.

(** [float(n)] *)
Definition of_int (n : Z) : spec_float := binary_normalize prec emax n 0 false.

Definition div : spec_float → spec_float → spec_float := SFdiv prec emax.
Definition mul : spec_float → spec_float → spec_float := SFmul prec emax.

(** [int(x)]: truncation towards zero; undefined on infinities and NaN,
    where Python raises. *)
Definition to_int (x : spec_float) : option Z :=
  match x with
  | S754_zero _ => Some 0
  | S754_finite s m e =>
      let a := if 0 <=? e then Z.pos m * 2 ^ e else Z.pos m `div` 2 ^ (- e) in
      Some (if s then - a else a)
  | S754_infinity _ | S754_nan => None
  end.

End Float.

(** ** Exceptions and results *)

(** The handlers of the service tell [ValueError] from every other
    exception; [Exception] stands for any of those. Both carry [str(e)]. *)
Inductive exn : Type :=
  | ValueError (msg : string)
  | Exception (msg : string).

Definition exn_str (e : exn) : string :=
  match e with ValueError msg | Exception msg => msg end.

Inductive result (A : Type) : Type :=
  | Ok (a : A)
  | Raise (e : exn).
Arguments Ok {A} a.
Arguments Raise {A} e.

(** What a route hands back to the HTTP layer: the response model, or an
    [HTTPException] with its status code and detail. *)
Inductive http_result (A : Type) : Type :=
  | Http200 (a : A)
  | HTTPException (status_code : Z) (detail : string).
Arguments Http200 {A} a.
Arguments HTTPException {A} status_code detail.

(** ** [app/core/config.py] *)

Record Settings : Type := {
  UPLOAD_DIR : string;
  ZERO_RETENTION_DEFAULT : bool;
  MAX_DOCS_PER_BATCH : Z;
  MAX_FILE_SIZE_MB : Z;
}.

(** The line of [Settings] that reads the retention default from the
    environment,
    [os.getenv("ZERO_RETENTION_DEFAULT", "true").lower() == "true"];
    [None] is an unset variable. *)
Definition zero_retention_default_of_env (env : option string) : bool :=
  bool_decide (Py.lower (default "true" env) = "true").

(** ** [app/models/schemas.py] *)

Record PageText : Type := {
  page_number : Z;
  text : string;
}.

(** The [metadata] dictionary of a response, with the six keys that
    [process_file] fills in. *)
Record Metadata : Type := {
  file_name : string;
  file_type : string;
  num_pages : Z;
  processing_time_ms : Z;
  engine : string;
  meta_zero_retention : bool;
}.

Record OCRResponse : Type := {
  job_id : string;
  status : string;
  document_type : string;
  pages : list PageText;
  full_text : string;
  metadata : Metadata;
}.

Record OCRBatchItem : Type := {
  filename : string;
  file_hash : string;
  skipped_duplicate : bool;
  reason : option string;
  response : option OCRResponse;
  error : option string;
}.

Record OCRBatchResponse : Type := {
  batch_status : string;
  batch_document_type : string;
  zero_retention : bool;
  max_docs_allowed : Z;
  results : list OCRBatchItem;
}.

(** An uploaded file as the routes see it: [f.filename] (possibly [None])
    and the bytes that [await f.read()] returns. *)
Record UploadFile : Type := {
  upload_filename : option string;
  upload_contents : list byte;
}.

(** ** The libraries and the operating system *)

(** Pillow, as far as [ocr_image] uses it. The laws are Pillow's: a mode
    conversion, a contrast stretch and a convolution filter keep the size,
    and [resize] returns an image of the requested size. *)
Class Imaging (Image : Type) : Type := {
  image_size : Image → Z * Z;
  convert_L : Image → Image;
  resize_lanczos : Image → Z * Z → Image;
  autocontrast : Image → Image;
  sharpen : Image → Image;
  image_size_convert_L im : image_size (convert_L im) = image_size im;
  image_size_resize im w h :
    0 < w → 0 < h → image_size (resize_lanczos im (w, h)) = (w, h);
  image_size_autocontrast im : image_size (autocontrast im) = image_size im;
  image_size_sharpen im : image_size (sharpen im) = image_size im;
}.

(** One page of an opened PDF: what reading its text layer gives
    ([get_textpage().get_text_range()], which may raise or return nothing)
    and what rendering it at a scale gives ([render(scale).to_pil()]). *)
Record PdfPage (Image : Type) : Type := {
  text_layer : result (option string);
  render_to_pil : spec_float → result Image;
}.
Arguments text_layer {Image} _.
Arguments render_to_pil {Image} _ _.

Abbreviation Store := (gmap string (list byte)).

Record Platform (Image : Type) : Type := {
  (** [pytesseract.image_to_string] *)
  image_to_string : Image → result string;
  (** [pdfium.PdfDocument(file_bytes)] with its pages; a page that fails
      to load is a failure of the document *)
  pdf_document : list byte → result (list (PdfPage Image));
  (** [Image.open(io.BytesIO(file_bytes))] *)
  image_open : list byte → result Image;
  (** [[p.text for p in Document(io.BytesIO(file_bytes)).paragraphs]] *)
  docx_paragraphs : list byte → result (list string);
  (** [hashlib.sha256(data).hexdigest()] *)
  sha256_hex : list byte → string;
  (** [str(uuid.uuid4())] of the n-th job *)
  uuid4 : nat → string;
  (** the wall-clock milliseconds that the n-th job takes *)
  elapsed_ms : nat → Z;
  (** [path.write_bytes] failing: the exception raised and what is left in
      the directory; [None] when the write goes through *)
  write_fault : Store → string → list byte → option (exn * Store);
  (** [path.unlink] failing; [None] when it goes through *)
  unlink_fault : Store → string → option exn;
}.
Arguments image_to_string {Image} _ _.
Arguments pdf_document {Image} _ _.
Arguments image_open {Image} _ _.
Arguments docx_paragraphs {Image} _ _.
Arguments sha256_hex {Image} _ _.
Arguments uuid4 {Image} _ _.
Arguments elapsed_ms {Image} _ _.
Arguments write_fault {Image} _ _ _ _.
Arguments unlink_fault {Image} _ _ _.

(** The state that the service reads and changes: the blobs of the upload
    directory by name, the images handed to the OCR engine so far (oldest
    first), and the number of jobs started. *)
Record World (Image : Type) : Type := {
  store : Store;
  ocr_calls : list Image;
  jobs : nat;
}.
Arguments store {Image} _.
Arguments ocr_calls {Image} _.
Arguments jobs {Image} _.
Arguments Build_World {Image} _ _ _.

(** ** The state-and-exception monad of the service *)

Definition M (Image A : Type) : Type := World Image → result A * World Image.

#[global] Instance M_ret {Image} : MRet (M Image) := λ A a w, (Ok a, w).

#[global] Instance M_bind {Image} : MBind (M Image) := λ A B f m w,
  match m w with
  | (Ok a, w') => f a w'
  | (Raise e, w') => (Raise e, w')
  end.

Definition raise {Image A} (e : exn) : M Image A := λ w, (Raise e, w).

Definition lift {Image A} (r : result A) : M Image A := λ w, (r, w).

(** [try: body except Exception as e: handler(e)] *)
Definition try_except {Image A} (body : M Image A) (handler : exn → M Image A)
  : M Image A := λ w,
  match body w with
  | (Ok a, w') => (Ok a, w')
  | (Raise e, w') => handler e w'
  end.

(** ** [configure_tesseract] *)

Definition win_default : string :=
  "C:\Program Files\Tesseract-OCR\tesseract.exe".

(** The value of [pytesseract.pytesseract.tesseract_cmd] after
    [configure_tesseract()], from its value before, the environment variable
    [TESSERACT_CMD] ([None] when unset), [os.path.exists] and
    [platform.system()]. *)
Definition configure_tesseract (env_cmd : option string)
    (path_exists : string → bool) (system : string) (tesseract_cmd : string)
  : string :=
  let otherwise :=
    if Py.startswith "win" (Py.lower system)
    then if path_exists win_default then win_default else tesseract_cmd
    else tesseract_cmd in
  match env_cmd with
  | Some cmd =>
      if negb (bool_decide (cmd = "")) && path_exists cmd then cmd
      else otherwise
  | None => otherwise
  end.

Section Pipeline.

Context {Image : Type} {imaging : Imaging Image}.
Context (platform : Platform Image) (settings : Settings).

Implicit Types (w : World Image) (image : Image).

Definition with_store (s : Store) w : World Image :=
  Build_World s (ocr_calls w) (jobs w).

(** ** [app/services/file_service.py]: the retention store *)

(** [path.write_bytes(file_bytes)] for [path = BASE_UPLOAD_DIR / safe] *)
Definition write_bytes (safe : string) (file_bytes : list byte) : M Image () :=
  λ w, match write_fault platform (store w) safe file_bytes with
       | None => (Ok (), with_store (<[safe := file_bytes]> (store w)) w)
       | Some (e, left_over) => (Raise e, with_store left_over w)
       end.

(** [path.unlink(missing_ok=True)] *)
Definition unlink_missing_ok (safe : string) : M Image () :=
  λ w, match unlink_fault platform (store w) safe with
       | None => (Ok (), with_store (delete safe (store w)) w)
       | Some e => (Raise e, w)
       end.

(** Returns [str(path)] for [path = BASE_UPLOAD_DIR / safe], where
    [BASE_UPLOAD_DIR = Path(settings.UPLOAD_DIR)]. *)
Definition save_unique_by_name (filename : string) (file_bytes : list byte)
  : M Image string :=
  let safe := sanitize_filename filename in
  _ ← write_bytes safe file_bytes;
  mret (Py.path_join_str (UPLOAD_DIR settings) safe).

Definition delete_if_exists (filename : string) : M Image () :=
  let safe := sanitize_filename filename in
  try_except (unlink_missing_ok safe) (λ _, mret ()).

(** ** [app/services/ocr_service.py] *)

(** [1000 / max_side] on integers *)
Definition upscale_factor (max_side : Z) : result spec_float :=
  if bool_decide (max_side = 0) then Raise (Exception "division by zero")
  else Ok (Float.div (Float.of_int 1000) (Float.of_int max_side)).

(** [int(n * scale)] *)
Definition scaled (n : Z) (scale : spec_float) : result Z :=
  match Float.to_int (Float.mul (Float.of_int n) scale) with
  | Some k => Ok k
  | None => Raise (Exception "cannot convert float to integer")
  end.

(** Lines 52 and 53 of [ocr_image]: the size asked of [resize] for an
    image of [w] by [h] pixels, [(int(w * scale), int(h * scale))] with
    [scale = 1000 / max(w, h)]. *)
Definition upscaled_size (w h : Z) : result (Z * Z) :=
  match upscale_factor (Z.max w h) with
  | Ok scale =>
      match scaled w scale, scaled h scale with
      | Ok w', Ok h' => Ok (w', h')
      | Raise e, _ | _, Raise e => Raise e
      end
  | Raise e => Raise e
  end.

(** The length computed for the longer side, [int(m * (1000 / m))]. *)
Definition long_side_upscaled (m : Z) : result Z :=
  match upscale_factor m with
  | Ok scale => scaled m scale
  | Raise e => Raise e
  end.

Definition is_999_or_1000 (r : result Z) : bool :=
  match r with
  | Ok k => bool_decide (k = 999) || bool_decide (k = 1000)
  | Raise _ => false
  end.

(** [image.resize(size, Image.LANCZOS)]: Pillow refuses a size with a side
    of less than one pixel. *)
Definition resize image (size : Z * Z) : result Image :=
  if bool_decide (size.1 < 1 ∨ size.2 < 1)
  then Raise (ValueError "height and width must be > 0")
  else Ok (resize_lanczos image size).

(** Lines 47 to 56 of [ocr_image]: the image that reaches the engine. *)
Definition preprocess image : result Image :=
  let image := convert_L image in
  let '(w, h) := image_size image in
  let max_side := Z.max w h in
  let resized :=
    if bool_decide (max_side < 1000) then
      match upscaled_size w h with
      | Ok size => resize image size
      | Raise e => Raise e
      end
    else Ok image in
  match resized with
  | Ok image => Ok (sharpen (autocontrast image))
  | Raise e => Raise e
  end.

(** [pytesseract.image_to_string(image)], recorded as a call of the engine *)
Definition tesseract image : M Image string :=
  λ w, (image_to_string platform image,
        Build_World (store w) (ocr_calls w ++ [image]) (jobs w)).

Definition ocr_image image : M Image string :=
  image ← lift (preprocess image);
  text ← tesseract image;
  mret (Py.strip text).

(** [300 / 72.0] *)
Definition render_scale : spec_float :=
  Float.div (Float.of_int 300) (Float.of_int 72).

(** The text that lines 72 to 77 of [extract_from_pdf] leave in [text]. *)
Definition embedded_text (page : PdfPage Image) : string :=
  match text_layer page with
  | Ok (Some s) => Py.strip s
  | Ok None => Py.strip ""
  | Raise _ => ""
  end.

(** The body of the loop of [extract_from_pdf] for the page of index [i]. *)
Definition extract_pdf_page (i : Z) (page : PdfPage Image) : M Image PageText :=
  let text := embedded_text page in
  text ← (if bool_decide (text = "") then
            pil_image ← lift (render_to_pil page render_scale);
            ocr_image pil_image
          else mret text);
  mret {| page_number := i + 1; text := text |}.

(** The loop [for i in range(len(pdf))], from index [i] on. *)
Fixpoint extract_pdf_pages (i : Z) (pdf : list (PdfPage Image))
  : M Image (list PageText) :=
  match pdf with
  | [] => mret []
  | page :: rest =>
      p ← extract_pdf_page i page;
      ps ← extract_pdf_pages (i + 1) rest;
      mret (p :: ps)
  end.

Definition extract_from_pdf (file_bytes : list byte) : M Image (list PageText) :=
  pdf ← lift (pdf_document platform file_bytes);
  extract_pdf_pages 0 pdf.

Definition extract_from_image (file_bytes : list byte) : M Image (list PageText) :=
  image ← lift (image_open platform file_bytes);
  text ← ocr_image image;
  mret [{| page_number := 1; text := text |}].

Definition extract_from_docx (file_bytes : list byte) : M Image (list PageText) :=
  doc ← lift (docx_paragraphs platform file_bytes);
  let paragraphs := filter (λ p, Py.strip p ≠ "") doc in
  let text := Py.join Py.LF paragraphs in
  mret [{| page_number := 1; text := text |}].

(** [job_id = str(uuid.uuid4())]: a new job *)
Definition new_job : M Image (nat * string) :=
  λ w, (Ok (jobs w, uuid4 platform (jobs w)),
        Build_World (store w) (ocr_calls w) (S (jobs w))).

(** Lines 125 to 132 of [process_file]: the strategy for an extension. *)
Definition extract_pages (ext : string) (file_bytes : list byte)
  : M Image (list PageText) :=
  if bool_decide (ext = "pdf") then extract_from_pdf file_bytes
  else if bool_decide (ext ∈ image_exts) then extract_from_image file_bytes
  else if bool_decide (ext = "docx") then extract_from_docx file_bytes
  else raise (ValueError ("Unsupported file type: ." +:+ Py.str_or ext "unknown")).

(** Lines 138 to 143 of [process_file]: the retention side effect. *)
Definition apply_retention (zero_retention : bool) (filename : string)
    (file_bytes : list byte) : M Image () :=
  if negb zero_retention
  then _ ← save_unique_by_name filename file_bytes; mret ()
  else delete_if_exists filename.

Definition process_file (file_bytes : list byte) (filename : string)
    (document_type : string) (zero_retention : option bool) : M Image OCRResponse :=
  '(job, job_id) ← new_job;
  let zero_retention := default (ZERO_RETENTION_DEFAULT settings) zero_retention in
  let ext := file_ext filename in
  pages ← extract_pages ext file_bytes;
  let full_text := Py.join Py.LFLF (text <$> pages) in
  let processing_time_ms := elapsed_ms platform job in
  _ ← apply_retention zero_retention filename file_bytes;
  mret {| job_id := job_id;
          status := "success";
          document_type := document_type;
          pages := pages;
          full_text := full_text;
          metadata := {| file_name := filename;
                         file_type := ext;
                         num_pages := Z.of_nat (length pages);
                         processing_time_ms := processing_time_ms;
                         engine := "tesseract";
                         meta_zero_retention := zero_retention |} |}.

(** What [ocr_image] returns for an image, apart from the call it records. *)
Definition ocr_outcome image : result string :=
  match preprocess image with
  | Ok image =>
      match image_to_string platform image with
      | Ok text => Ok (Py.strip text)
      | Raise e => Raise e
      end
  | Raise e => Raise e
  end.

(** The text layer of a page is absent, unreadable, or white space
    throughout. *)
Definition blank_layer (page : PdfPage Image) : bool :=
  match text_layer page with
  | Ok (Some s) => Py.all_chars Py.isspace s
  | Ok None => true
  | Raise _ => true
  end.

(** The images that reach the engine on account of a page: none for a page
    with a text layer, the preprocessed raster of the page otherwise. *)
Definition engine_input (page : PdfPage Image) : list Image :=
  if blank_layer page then
    match render_to_pil page render_scale with
    | Ok pil_image =>
        match preprocess pil_image with
        | Ok image => [image]
        | Raise _ => []
        end
    | Raise _ => []
    end
  else [].

(** What the specification asks of the page produced for a PDF page. *)
Definition page_text_ok (page : PdfPage Image) (p : PageText) : Prop :=
  if blank_layer page then
    ∃ pil_image, render_to_pil page render_scale = Ok pil_image
                 ∧ ocr_outcome pil_image = Ok (text p)
  else
    ∃ s, text_layer page = Ok (Some s) ∧ text p = Py.strip s.

(** Two worlds with the same upload directory and the same job counter:
    they differ at most in the calls made to the engine. *)
Definition same_files w w' : Prop := store w' = store w ∧ jobs w' = jobs w.

(** ** [app/api/ocr_routes.py] *)

Definition sha256_bytes (data : list byte) : string := sha256_hex platform data.

(** [settings.MAX_FILE_SIZE_MB * 1024 * 1024] *)
Definition max_bytes : Z := MAX_FILE_SIZE_MB settings * 1024 * 1024.

Definition size_message : string :=
  "File exceeds max size of " +:+ Py.str_int (MAX_FILE_SIZE_MB settings) +:+ " MB".

(** [f.filename or "document"] *)
Definition filename_or_document (f : UploadFile) : string :=
  match upload_filename f with
  | Some name => Py.str_or name "document"
  | None => "document"
  end.

Definition extract_text (file : UploadFile) (document_type : string)
    (zero_retention : option string) w : http_result OCRResponse * World Image :=
  let zr := parse_bool zero_retention (ZERO_RETENTION_DEFAULT settings) in
  let contents := upload_contents file in
  if bool_decide (contents = []) then (HTTPException 400 "Empty file", w)
  else if bool_decide (max_bytes < Z.of_nat (length contents))
  then (HTTPException 400 size_message, w)
  else
    match process_file contents (filename_or_document file) document_type
                       (Some zr) w with
    | (Ok resp, w') => (Http200 resp, w')
    | (Raise (ValueError msg), w') => (HTTPException 400 msg, w')
    | (Raise (Exception msg), w') => (HTTPException 500 msg, w')
    end.

(** The three shapes of item that [extract_batch] builds. *)
Definition error_item (filename msg : string) : OCRBatchItem :=
  {| filename := filename; file_hash := ""; skipped_duplicate := false;
     reason := None; response := None; error := Some msg |}.

Definition skipped_item (filename file_hash reason : string) : OCRBatchItem :=
  {| filename := filename; file_hash := file_hash; skipped_duplicate := true;
     reason := Some reason; response := None; error := None |}.

Definition response_item (filename file_hash : string) (resp : OCRResponse)
  : OCRBatchItem :=
  {| filename := filename; file_hash := file_hash; skipped_duplicate := false;
     reason := None; response := Some resp; error := None |}.

(** The locals that the loop of [extract_batch] mutates. *)
Record BatchLocals : Type := {
  seen_names : gset string;
  seen_hashes : gset string;
  batch_results : list OCRBatchItem;
}.

Definition append_result (item : OCRBatchItem) (st : BatchLocals) : BatchLocals :=
  {| seen_names := seen_names st; seen_hashes := seen_hashes st;
     batch_results := batch_results st ++ [item] |}.

Definition add_name (name : string) (st : BatchLocals) : BatchLocals :=
  {| seen_names := {[name]} ∪ seen_names st; seen_hashes := seen_hashes st;
     batch_results := batch_results st |}.

Definition add_hash (h : string) (st : BatchLocals) : BatchLocals :=
  {| seen_names := seen_names st; seen_hashes := {[h]} ∪ seen_hashes st;
     batch_results := batch_results st |}.

(** The body of [for f in files]. The sets are updated in place before
    [process_file] runs, so what was added stays when it raises; both
    handlers build the same item from [str(e)]. *)
Definition batch_file (document_type : string) (zr : bool) (f : UploadFile)
    (st : BatchLocals) w : BatchLocals * World Image :=
  let filename := filename_or_document f in
  let contents := upload_contents f in
  if bool_decide (contents = [])
  then (append_result (error_item filename "Empty file") st, w)
  else if bool_decide (max_bytes < Z.of_nat (length contents))
  then (append_result (error_item filename size_message) st, w)
  else if bool_decide (filename ∈ seen_names st)
  then (append_result
          (skipped_item filename "" "duplicate_filename_in_batch") st, w)
  else
    let st := add_name filename st in
    let h := sha256_bytes contents in
    if bool_decide (h ∈ seen_hashes st)
    then (append_result
            (skipped_item filename h "duplicate_content_in_batch") st, w)
    else
      let st := add_hash h st in
      match process_file contents filename document_type (Some zr) w with
      | (Ok resp, w') => (append_result (response_item filename h resp) st, w')
      | (Raise (ValueError msg), w') =>
          (append_result (error_item filename msg) st, w')
      | (Raise (Exception msg), w') =>
          (append_result (error_item filename msg) st, w')
      end.

Definition batch_loop (document_type : string) (zr : bool)
    (files : list UploadFile) (st : BatchLocals) w : BatchLocals * World Image :=
  foldl (λ acc f, batch_file document_type zr f acc.1 acc.2) (st, w) files.

Definition batch_start : BatchLocals :=
  {| seen_names := ∅; seen_hashes := ∅; batch_results := [] |}.

Definition extract_batch (files : list UploadFile) (document_type : string)
    (zero_retention : option string) w
  : http_result OCRBatchResponse * World Image :=
  let zr := parse_bool zero_retention (ZERO_RETENTION_DEFAULT settings) in
  if bool_decide (MAX_DOCS_PER_BATCH settings < Z.of_nat (length files))
  then (HTTPException 400
          ("Too many files. Received " +:+ Py.str_int (Z.of_nat (length files))
           +:+ " but max allowed is "
           +:+ Py.str_int (MAX_DOCS_PER_BATCH settings) +:+ "."), w)
  else
    let '(st, w') := batch_loop document_type zr files batch_start w in
    (Http200 {| batch_status := "success";
                batch_document_type := document_type;
                zero_retention := zr;
                max_docs_allowed := MAX_DOCS_PER_BATCH settings;
                results := batch_results st |}, w').

(** ** The batch algorithm in the words of the specification *)

(** A file passes the two size checks. *)
Definition accepted (f : UploadFile) : bool :=
  bool_decide (upload_contents f ≠ []
               ∧ Z.of_nat (length (upload_contents f)) ≤ max_bytes).

(** The filenames registered by the files of [earlier]: those of the files
    that passed the size checks. *)
Definition registered_names (earlier : list UploadFile) : gset string :=
  list_to_set (filename_or_document <$> filter (λ f, accepted f = true) earlier).

(** The content hashes registered by [files], when [names] were registered
    before them: those of the accepted files whose name was new. *)
Fixpoint hashes_after (names : gset string) (files : list UploadFile)
  : gset string :=
  match files with
  | [] => ∅
  | f :: rest =>
      if accepted f && negb (bool_decide (filename_or_document f ∈ names))
      then {[sha256_bytes (upload_contents f)]}
           ∪ hashes_after ({[filename_or_document f]} ∪ names) rest
      else hashes_after names rest
  end.

Definition registered_hashes (earlier : list UploadFile) : gset string :=
  hashes_after ∅ earlier.

(** The item of one file, from the files before it and the outcome of its
    own extraction, field by field. *)
Definition item_of (earlier : list UploadFile) (f : UploadFile)
    (extraction : result OCRResponse) : OCRBatchItem :=
  let name := filename_or_document f in
  let h := sha256_bytes (upload_contents f) in
  if bool_decide (upload_contents f = []) then
    {| filename := name; file_hash := ""; skipped_duplicate := false;
       reason := None; response := None; error := Some "Empty file" |}
  else if bool_decide (max_bytes < Z.of_nat (length (upload_contents f))) then
    {| filename := name; file_hash := ""; skipped_duplicate := false;
       reason := None; response := None;
       error := Some ("File exceeds max size of "
                      +:+ Py.str_int (MAX_FILE_SIZE_MB settings) +:+ " MB") |}
  else if bool_decide (name ∈ registered_names earlier) then
    {| filename := name; file_hash := ""; skipped_duplicate := true;
       reason := Some "duplicate_filename_in_batch";
       response := None; error := None |}
  else if bool_decide (h ∈ registered_hashes earlier) then
    {| filename := name; file_hash := h; skipped_duplicate := true;
       reason := Some "duplicate_content_in_batch";
       response := None; error := None |}
  else match extraction with
       | Ok resp =>
           {| filename := name; file_hash := h; skipped_duplicate := false;
              reason := None; response := Some resp; error := None |}
       | Raise e =>
           {| filename := name; file_hash := ""; skipped_duplicate := false;
              reason := None; response := None; error := Some (exn_str e) |}
       end.

End Pipeline.

(** ** A concrete platform, for running the service on examples *)

(** Images reduced to their size. *)
#[global] Instance size_only : Imaging (Z * Z) := {|
  image_size := λ im, im;
  convert_L := λ im, im;
  resize_lanczos := λ _ size, size;
  autocontrast := λ im, im;
  sharpen := λ im, im;
  image_size_convert_L := λ _, eq_refl;
  image_size_resize := λ _ _ _ _ _, eq_refl;
  image_size_autocontrast := λ _, eq_refl;
  image_size_sharpen := λ _, eq_refl;
|}.

(** A three-page PDF: a page with a padded text layer, a scanned page whose
    layer holds white space only, and a page whose layer cannot be read. *)
Definition demo_pdf : list (PdfPage (Z * Z)) :=
  [ {| text_layer := Ok (Some "  Invoice 42 ");
       render_to_pil := λ _, Ok (2550, 3300) |};
    {| text_layer := Ok (Some "   ");
       render_to_pil := λ _, Ok (2550, 3300) |};
    {| text_layer := Raise (Exception "text page failed to load");
       render_to_pil := λ _, Ok (400, 300) |} ].

(** A stand-in for the digest: the bytes written out in decimal. *)
Definition demo_digest (data : list byte) : string :=
  Py.join "-" ((λ b, pretty (Byte.to_N b)) <$> data).

Definition demo_platform : Platform (Z * Z) := {|
  image_to_string := λ im, Ok (" page of " +:+ pretty im.1 +:+ " pixels ");
  pdf_document := λ _, Ok demo_pdf;
  image_open := λ _, Ok (19, 19);
  docx_paragraphs := λ _, Ok ["Title"; "   "; ""; " body "];
  sha256_hex := demo_digest;
  uuid4 := λ n, "job-" +:+ pretty n;
  elapsed_ms := λ _, 5;
  write_fault := λ _ _ _, None;
  unlink_fault := λ _ _, None;
|}.

(** The same platform on a directory that refuses every write and every
    unlink. *)
Definition read_only_platform : Platform (Z * Z) := {|
  image_to_string := image_to_string demo_platform;
  pdf_document := pdf_document demo_platform;
  image_open := image_open demo_platform;
  docx_paragraphs := docx_paragraphs demo_platform;
  sha256_hex := sha256_hex demo_platform;
  uuid4 := uuid4 demo_platform;
  elapsed_ms := elapsed_ms demo_platform;
  write_fault := λ s _ _, Some (Exception "[Errno 13] Permission denied", s);
  unlink_fault := λ _ _, Some (Exception "[Errno 13] Permission denied");
|}.

(** The example platform with a DOCX reader that, as python-docx does,
    refuses an empty byte string. *)
Definition strict_platform : Platform (Z * Z) := {|
  image_to_string := image_to_string demo_platform;
  pdf_document := pdf_document demo_platform;
  image_open := image_open demo_platform;
  docx_paragraphs := λ data,
    if bool_decide (data = []) then Raise (Exception "File is not a zip file")
    else docx_paragraphs demo_platform data;
  sha256_hex := sha256_hex demo_platform;
  uuid4 := uuid4 demo_platform;
  elapsed_ms := elapsed_ms demo_platform;
  write_fault := write_fault demo_platform;
  unlink_fault := unlink_fault demo_platform;
|}.

Definition demo_settings : Settings := {|
  UPLOAD_DIR := "uploads";
  ZERO_RETENTION_DEFAULT := true;
  MAX_DOCS_PER_BATCH := 20;
  MAX_FILE_SIZE_MB := 20;
|}.

Definition empty_world : World (Z * Z) := Build_World ∅ [] 0.

(** The pages of a run, none when it raised. *)
Definition pages_of_run (run : result OCRResponse) : list PageText :=
  match run with
  | Ok resp => pages resp
  | Raise _ => []
  end.

Definition demo_bytes : list byte := [x25; x50; x44; x46].
Definition other_bytes : list byte := [x50; x4b].

(** An upload directory that already holds a blob named [scan.docx]. *)
Definition stale_world : World (Z * Z) :=
  Build_World {["scan.docx" := other_bytes]} [] 0.

(** A batch of five uploads: a document, a second upload under the same
    name with other bytes, the bytes of the first under another name, an
    empty upload, and a file of a format that is not supported. *)
Definition demo_batch : list UploadFile :=
  [ {| upload_filename := Some "a.docx"; upload_contents := demo_bytes |};
    {| upload_filename := Some "a.docx"; upload_contents := other_bytes |};
    {| upload_filename := Some "b.docx"; upload_contents := demo_bytes |};
    {| upload_filename := Some "e.docx"; upload_contents := [] |};
    {| upload_filename := Some "u.xyz"; upload_contents := other_bytes |} ].

(** Two uploads that differ in name and in content. *)
Definition demo_pair : list UploadFile :=
  [ {| upload_filename := Some "a.docx"; upload_contents := demo_bytes |};
    {| upload_filename := Some "c.png"; upload_contents := other_bytes |} ].

(** * Properties *)

(** ** Strings *)

Lemma append_nil_l (t : string) : "" +:+ t = t.
Proof. reflexivity. Qed.

Lemma append_cons c (s t : string) : String c s +:+ t = String c (s +:+ t).
Proof. reflexivity. Qed.

(** Unfolds the appends whose left operand starts with a constructor. *)
Ltac str_simpl := rewrite ?append_cons, ?append_nil_l; simpl.

Lemma append_nil_r (s : string) : s +:+ "" = s.
Proof. induction s as [|c s IH]; str_simpl; [done | by f_equal]. Qed.

Lemma append_assoc (s t u : string) : (s +:+ t) +:+ u = s +:+ (t +:+ u).
Proof. induction s as [|c s IH]; str_simpl; [done | by f_equal]. Qed.

Lemma rstrip_empty_iff (s : string) :
  Py.rstrip s = "" ↔ Py.all_chars Py.isspace s = true.
Proof.
  induction s as [|c s IH]; simpl; [done |].
  destruct (Py.rstrip s) eqn:E.
  - destruct (Py.isspace c); simpl; [tauto | split; [done | done]].
  - split; [done |]. intros H%andb_prop. destruct H as [_ H].
    apply IH in H. done.
Qed.

Lemma all_chars_lstrip p (s : string) :
  Py.all_chars p s = true → Py.all_chars p (Py.lstrip s) = true.
Proof.
  induction s as [|c s IH]; simpl; [done |].
  intros [Hc Hs]%andb_prop. destruct (Py.isspace c); [auto |].
  simpl. by rewrite Hc, Hs.
Qed.

Lemma all_chars_rstrip p (s : string) :
  Py.all_chars p s = true → Py.all_chars p (Py.rstrip s) = true.
Proof.
  induction s as [|c s IH]; simpl; [done |].
  intros [Hc Hs]%andb_prop. specialize (IH Hs).
  destruct (Py.rstrip s) eqn:E.
  - destruct (Py.isspace c); simpl; [done | by rewrite Hc].
  - simpl in *. by rewrite Hc, IH.
Qed.

(** A string strips to nothing exactly when it is white space throughout. *)
Lemma strip_empty_iff (s : string) :
  Py.strip s = "" ↔ Py.all_chars Py.isspace s = true.
Proof.
  unfold Py.strip. rewrite rstrip_empty_iff. split.
  - induction s as [|c s IH]; simpl; [done |].
    destruct (Py.isspace c) eqn:Hc; simpl; [auto |]. by rewrite Hc.
  - apply all_chars_lstrip.
Qed.

Lemma contains_append c (s t : string) :
  Py.contains c (s +:+ t) = Py.contains c s || Py.contains c t.
Proof.
  induction s as [|d s IH]; str_simpl; [done |]. rewrite IH. by rewrite orb_assoc.
Qed.

Lemma lower_append (s t : string) :
  Py.lower (s +:+ t) = Py.lower s +:+ Py.lower t.
Proof. induction s as [|c s IH]; str_simpl; [done | by rewrite IH]. Qed.

Lemma rsplit1_last_append sep (stem suffix : string) :
  Py.contains sep suffix = false →
  Py.rsplit1_last sep (stem +:+ String sep suffix) = suffix.
Proof.
  intros Hs. induction stem as [|c stem IH]; str_simpl.
  - rewrite Hs. by rewrite bool_decide_eq_true_2.
  - rewrite contains_append. simpl. rewrite bool_decide_eq_true_2 by done.
    rewrite orb_true_r. done.
Qed.

(** The extension is the lower-cased text after the last dot, and empty
    when the filename has no dot. *)
Lemma file_ext_after_last_dot (stem suffix : string) :
  Py.contains "." suffix = false →
  file_ext (stem +:+ "." +:+ suffix) = Py.lower suffix.
Proof.
  intros Hs. unfold file_ext. rewrite contains_append. str_simpl.
  rewrite orb_true_r. by rewrite rsplit1_last_append.
Qed.

Lemma file_ext_no_dot (filename : string) :
  Py.contains "." filename = false → file_ext filename = "".
Proof. intros H. unfold file_ext. by rewrite H. Qed.

(** ** [parse_bool] *)

(** C6, as stated, fails: a present token outside the set does not fall back
    to the configured default. With the default at true, the token [no]
    parses to false. *)
Lemma parse_bool_unknown_token_not_default :
  ¬ (∀ (val : string) (default : bool),
       Py.lower (Py.strip val) ∉ truthy_tokens →
       parse_bool (Some val) default = default).
Proof.
  intros H. specialize (H "no" true). vm_compute in H.
  assert (false = true) as Hft; [| discriminate Hft].
  apply H. intros Hin. repeat (apply elem_of_cons in Hin as [Hin | Hin];
    [discriminate Hin |]). by apply elem_of_nil in Hin.
Qed.

(** C6, amended: an absent token yields the configured default; a token
    that is one of 1, true, yes, y, on once trimmed and lower-cased yields
    true; every other present token yields false, whatever the default. *)
Theorem parse_bool_tokens (val : option string) (default : bool) :
  (val = None → parse_bool val default = default)
  ∧ (∀ v, val = Some v → Py.lower (Py.strip v) ∈ truthy_tokens →
          parse_bool val default = true)
  ∧ (∀ v, val = Some v → Py.lower (Py.strip v) ∉ truthy_tokens →
          parse_bool val default = false).
Proof.
  split; [by intros -> |]. split; intros v -> Hv; simpl.
  - by apply bool_decide_eq_true_2.
  - by apply bool_decide_eq_false_2.
Qed.

Lemma parse_bool_tokens_witness :
  parse_bool None true = true
  ∧ parse_bool (Some "  YeS ") false = true
  ∧ parse_bool (Some "false") true = false.
Proof.
  split; [| split].
  - apply (proj1 (parse_bool_tokens None true)). reflexivity.
  - apply (proj1 (proj2 (parse_bool_tokens (Some "  YeS ") false)) "  YeS ").
    + reflexivity.
    + apply (bool_decide_unpack _). vm_compute. exact I.
  - apply (proj2 (proj2 (parse_bool_tokens (Some "false") true)) "false").
    + reflexivity.
    + apply (bool_decide_unpack _). vm_compute. exact I.
Defined.

(** ** [sanitize_filename] *)

Lemma split_not_nil sep (s : string) : Py.split sep s ≠ [].
Proof.
  induction s as [|c s IH]; simpl; [done |].
  case_bool_decide; [done |]. by destruct (Py.split sep s).
Qed.

Lemma split_no_sep sep (s : string) :
  Py.contains sep s = false → Py.split sep s = [s].
Proof.
  induction s as [|c s IH]; simpl; [done |].
  intros [Hc Hs]%orb_false_elim. rewrite Hc, (IH Hs). done.
Qed.

Lemma split_append sep (dir base : string) :
  Py.split sep (dir +:+ String sep base) = Py.split sep dir ++ Py.split sep base.
Proof.
  induction dir as [|c dir IH]; str_simpl.
  - by rewrite bool_decide_eq_true_2.
  - rewrite IH. case_bool_decide; [done |].
    pose proof (split_not_nil sep dir) as Hne.
    by destruct (Py.split sep dir).
Qed.

(** The name of a path that ends in a component after a slash is that
    component: whatever directories precede it are gone. *)
Lemma path_name_strips_directory (dir base : string) :
  Py.contains "/" base = false → base ≠ "" → base ≠ "." →
  Py.path_name (dir +:+ "/" +:+ base) = base.
Proof.
  intros Hb H1 H2. unfold Py.path_name. str_simpl.
  rewrite split_append, (split_no_sep _ base Hb), filter_app.
  rewrite filter_cons_True by done. rewrite filter_nil. apply last_last.
Qed.

Lemma path_name_plain (name : string) :
  Py.contains "/" name = false → name ≠ "." → Py.path_name name = name.
Proof.
  intros Hb H2. unfold Py.path_name. rewrite (split_no_sep _ name Hb).
  destruct (decide (name = "")) as [-> | H1]; [done |].
  by rewrite filter_cons_True.
Qed.

Lemma sub_unsafe_runs_append in_run (s t : string) :
  sub_unsafe_runs in_run (s +:+ t)
  = sub_unsafe_runs in_run s +:+ sub_unsafe_runs (ends_in_run in_run s) t.
Proof.
  revert in_run. induction s as [|c s IH]; intros in_run; str_simpl; [done |].
  destruct (safe_char c); simpl.
  - by rewrite IH.
  - destruct in_run; by rewrite IH.
Qed.

Lemma sub_unsafe_runs_inside (bad : string) :
  Py.all_chars (λ c, negb (safe_char c)) bad = true →
  sub_unsafe_runs true bad = "" ∧ ends_in_run true bad = true.
Proof.
  induction bad as [|c bad IH]; simpl; [done |].
  intros [Hc Hb]%andb_prop. apply negb_true_iff in Hc. rewrite Hc. simpl. auto.
Qed.

Lemma sub_unsafe_runs_run (bad : string) :
  bad ≠ "" → Py.all_chars (λ c, negb (safe_char c)) bad = true →
  sub_unsafe_runs false bad = "_" ∧ ends_in_run false bad = true.
Proof.
  destruct bad as [|c bad]; [done |]. intros _. simpl.
  intros [Hc Hb]%andb_prop. apply negb_true_iff in Hc. rewrite Hc. simpl.
  destruct (sub_unsafe_runs_inside bad Hb) as [-> ->]. done.
Qed.

Lemma sub_unsafe_runs_resume in_run (s : string) :
  starts_unsafe s = false → sub_unsafe_runs in_run s = sub_unsafe_runs false s.
Proof.
  destruct s as [|c s]; simpl; [done |].
  intros Hc%negb_false_iff. by rewrite Hc.
Qed.

Lemma sub_unsafe_runs_safe in_run (s : string) :
  Py.all_chars safe_char (sub_unsafe_runs in_run s) = true.
Proof.
  revert in_run. induction s as [|c s IH]; intros in_run; simpl; [done |].
  destruct (safe_char c) eqn:Hc; simpl.
  - by rewrite Hc, IH.
  - destruct in_run; simpl; by rewrite IH.
Qed.

Lemma sanitize_filename_safe (filename : string) :
  Py.all_chars safe_char (sanitize_filename filename) = true.
Proof.
  unfold sanitize_filename, Py.str_or. case_bool_decide; [done |].
  unfold Py.strip. apply all_chars_rstrip, all_chars_lstrip.
  apply sub_unsafe_runs_safe.
Qed.

(** C7, as stated, fails: a run of two characters outside the class becomes
    one underscore, not two, and the result is trimmed. *)
Lemma sanitize_filename_collapses_run :
  sanitize_filename "a@@b" = "a_b"
  ∧ sanitize_filename "a@@b" ≠ sanitize_filename_per_char "a@@b"
  ∧ sanitize_filename " a" ≠ sanitize_filename_per_char " a".
Proof. vm_compute. repeat split; discriminate. Qed.

(** C7, amended: sanitisation strips any directory component, replaces
    every maximal run of characters outside [A-Za-z0-9._ -] by a single
    underscore (a run of k such characters yields one underscore), trims the
    white space at both ends of the result, and falls back to the fixed
    name [document] when nothing is left. The result is never empty and
    holds characters of the class only. *)
Theorem sanitize_filename_runs :
  (∀ dir base : string,
     Py.contains "/" base = false → base ≠ "" → base ≠ "." →
     sanitize_filename (dir +:+ "/" +:+ base) = sanitize_filename base)
  ∧ (∀ name : string,
       Py.contains "/" name = false → name ≠ "." →
       sanitize_filename name
       = Py.str_or (Py.strip (sub_unsafe_runs false name)) "document")
  ∧ (∀ before bad after : string,
       ends_in_run false before = false → starts_unsafe after = false →
       bad ≠ "" → Py.all_chars (λ c, negb (safe_char c)) bad = true →
       sub_unsafe_runs false (before +:+ bad +:+ after)
       = sub_unsafe_runs false before +:+ "_" +:+ sub_unsafe_runs false after)
  ∧ (∀ name : string,
       Py.all_chars safe_char name = true → sub_unsafe_runs false name = name)
  ∧ (∀ filename : string,
       sanitize_filename filename ≠ ""
       ∧ Py.all_chars safe_char (sanitize_filename filename) = true
       ∧ (Py.strip (sub_unsafe_runs false (Py.path_name filename)) = "" →
          sanitize_filename filename = "document")).
Proof.
  split; [| split; [| split; [| split]]].
  - intros dir base Hb H1 H2. unfold sanitize_filename.
    by rewrite path_name_strips_directory, path_name_plain.
  - intros name Hb H2. unfold sanitize_filename. by rewrite path_name_plain.
  - intros before bad after Hbefore Hafter Hne Hbad.
    rewrite !sub_unsafe_runs_append, Hbefore.
    destruct (sub_unsafe_runs_run bad Hne Hbad) as [-> ->].
    by rewrite (sub_unsafe_runs_resume true after Hafter).
  - intros name. induction name as [|c name IH]; simpl; [done |].
    intros [Hc Hn]%andb_prop. rewrite Hc. by rewrite IH.
  - intros filename. split; [| split].
    + unfold sanitize_filename, Py.str_or. by case_bool_decide.
    + apply sanitize_filename_safe.
    + intros H. unfold sanitize_filename. by rewrite H.
Qed.

Lemma sanitize_filename_runs_witness :
  sanitize_filename "../../etc/pass wd" = sanitize_filename "pass wd"
  ∧ sanitize_filename "***" = Py.str_or (Py.strip (sub_unsafe_runs false "***")) "document"
  ∧ sub_unsafe_runs false "a@@@b" = "a_b"
  ∧ sub_unsafe_runs false "scan-01.pdf" = "scan-01.pdf"
  ∧ sanitize_filename "   " = "document".
Proof.
  destruct sanitize_filename_runs as (Hdir & Hplain & Hrun & Hid & Hall).
  split; [| split; [| split; [| split]]].
  - apply (Hdir "../../etc" "pass wd"); [reflexivity | discriminate..].
  - apply (Hplain "***"); [reflexivity | discriminate].
  - apply (Hrun "a" "@@@" "b"); [reflexivity.. | discriminate | reflexivity].
  - apply (Hid "scan-01.pdf"). reflexivity.
  - apply (Hall "   "). reflexivity.
Defined.

(** ** The extraction pipeline *)

Section PipelineProperties.

Context {Image : Type} {imaging : Imaging Image}.
Context (platform : Platform Image) (settings : Settings).

Implicit Types (w : World Image) (image : Image).

Ltac unfold_monad :=
  unfold mbind, M_bind, mret, M_ret, lift, raise, try_except in *.

Lemma ocr_image_run image w :
  ocr_image platform image w
  = match preprocess image with
    | Ok image' =>
        (ocr_outcome platform image,
         Build_World (store w) (ocr_calls w ++ [image']) (jobs w))
    | Raise e => (Raise e, w)
    end.
Proof.
  unfold ocr_image, ocr_outcome, tesseract. unfold_monad.
  destruct (preprocess image) as [image' | e]; [| done].
  by destruct (image_to_string platform image').
Qed.

Lemma same_files_trans w1 w2 w3 :
  same_files w1 w2 → same_files w2 w3 → same_files w1 w3.
Proof. intros [? ?] [? ?]. split; congruence. Qed.

Lemma ocr_image_same_files image w : same_files w (ocr_image platform image w).2.
Proof. rewrite ocr_image_run. by destruct (preprocess image). Qed.

Lemma extract_pdf_page_same_files i page w :
  same_files w (extract_pdf_page platform i page w).2.
Proof.
  unfold extract_pdf_page. unfold_monad. case_bool_decide; [| done].
  destruct (render_to_pil page render_scale) as [pil | e]; [| done].
  pose proof (ocr_image_same_files pil w) as Hsf.
  by destruct (ocr_image platform pil w) as [[t | e] w1].
Qed.

Lemma extract_pdf_pages_same_files pdf i w :
  same_files w (extract_pdf_pages platform i pdf w).2.
Proof.
  revert i w. induction pdf as [|page rest IH]; intros i w; simpl; [done |].
  unfold_monad.
  pose proof (extract_pdf_page_same_files i page w) as H1.
  destruct (extract_pdf_page platform i page w) as [[p | e] w1]; [| done].
  pose proof (IH (i + 1) w1) as H2.
  destruct (extract_pdf_pages platform (i + 1) rest w1) as [[ps | e] w2];
    simpl in *; by eapply same_files_trans.
Qed.

Lemma extract_pages_same_files ext file_bytes w :
  same_files w (extract_pages platform ext file_bytes w).2.
Proof.
  unfold extract_pages. repeat case_bool_decide.
  - unfold extract_from_pdf. unfold_monad.
    destruct (pdf_document platform file_bytes) as [pdf | e]; [| done].
    apply extract_pdf_pages_same_files.
  - unfold extract_from_image. unfold_monad.
    destruct (image_open platform file_bytes) as [image | e]; [| done].
    pose proof (ocr_image_same_files image w) as Hsf.
    by destruct (ocr_image platform image w) as [[t | e] w1].
  - unfold extract_from_docx. unfold_monad.
    by destruct (docx_paragraphs platform file_bytes).
  - done.
Qed.

(** Extraction may call the engine; it leaves the upload directory and the
    job counter alone. *)
Lemma extract_pages_store ext file_bytes w :
  store (extract_pages platform ext file_bytes w).2 = store w.
Proof. apply extract_pages_same_files. Qed.

(** What extraction returns does not depend on the world it runs in: not on
    the upload directory, not on the jobs run before, not on the calls the
    engine has served. *)
Lemma extract_pdf_pages_any_world (pdf : list (PdfPage Image)) i w1 w2 :
  (extract_pdf_pages platform i pdf w1).1
  = (extract_pdf_pages platform i pdf w2).1.
Proof.
  revert i w1 w2. induction pdf as [|page rest IH]; intros i w1 w2; simpl;
    [done |].
  unfold_monad.
  assert ((extract_pdf_page platform i page w1).1
          = (extract_pdf_page platform i page w2).1) as Hpage.
  { unfold extract_pdf_page. unfold_monad. case_bool_decide; [| done].
    destruct (render_to_pil page render_scale) as [pil | e]; [| done].
    rewrite !ocr_image_run. destruct (preprocess pil); [| done]. simpl.
    by destruct (ocr_outcome platform pil). }
  destruct (extract_pdf_page platform i page w1) as [[p1 | e1] v1];
    destruct (extract_pdf_page platform i page w2) as [[p2 | e2] v2];
    simpl in Hpage; try discriminate Hpage.
  - injection Hpage as ->. specialize (IH (i + 1) v1 v2).
    destruct (extract_pdf_pages platform (i + 1) rest v1) as [[ps1 | e1] u1];
      destruct (extract_pdf_pages platform (i + 1) rest v2) as [[ps2 | e2] u2];
      simpl in *; congruence.
  - simpl. congruence.
Qed.

Lemma extract_pages_any_world ext file_bytes w1 w2 :
  (extract_pages platform ext file_bytes w1).1
  = (extract_pages platform ext file_bytes w2).1.
Proof.
  unfold extract_pages. repeat case_bool_decide; [| | | done].
  - unfold extract_from_pdf. unfold_monad.
    destruct (pdf_document platform file_bytes) as [pdf | e]; [| done].
    apply extract_pdf_pages_any_world.
  - unfold extract_from_image. unfold_monad.
    destruct (image_open platform file_bytes) as [image | e]; [| done].
    rewrite !ocr_image_run. destruct (preprocess image); [| done].
    by destruct (ocr_outcome platform image).
  - unfold extract_from_docx. unfold_monad.
    by destruct (docx_paragraphs platform file_bytes).
Qed.

(** [process_file], step by step: the job, the strategy, the retention side
    effect, the response. *)
Lemma process_file_run file_bytes filename document_type zero_retention w :
  let w0 := Build_World (store w) (ocr_calls w) (S (jobs w)) in
  let zr := default (ZERO_RETENTION_DEFAULT settings) zero_retention in
  process_file platform settings file_bytes filename document_type zero_retention w
  = match extract_pages platform (file_ext filename) file_bytes w0 with
    | (Ok pages, w1) =>
        match apply_retention platform settings zr filename file_bytes w1 with
        | (Ok _, w2) =>
            (Ok {| job_id := uuid4 platform (jobs w);
                   status := "success";
                   document_type := document_type;
                   pages := pages;
                   full_text := Py.join Py.LFLF (text <$> pages);
                   metadata := {| file_name := filename;
                                  file_type := file_ext filename;
                                  num_pages := Z.of_nat (length pages);
                                  processing_time_ms := elapsed_ms platform (jobs w);
                                  engine := "tesseract";
                                  meta_zero_retention := zr |} |}, w2)
        | (Raise e, w2) => (Raise e, w2)
        end
    | (Raise e, w1) => (Raise e, w1)
    end.
Proof.
  intros w0 zr. unfold process_file, new_job. unfold_monad. fold w0. fold zr.
  destruct (extract_pages platform (file_ext filename) file_bytes w0)
    as [[pages | e] w1]; [| done].
  by destruct (apply_retention platform settings zr filename file_bytes w1)
    as [[[] | e] w2].
Qed.

(** C8: a filename whose extension (lower-cased, taken after the last dot)
    is none of pdf, jpg, jpeg, png, bmp, tif, tiff, docx, or that has no
    extension, makes [process_file] raise the [ValueError] that names the
    extension, or [unknown] when there is none; the upload directory is
    neither written to nor deleted from, and the engine is not called. *)
Theorem process_file_unsupported file_bytes filename document_type
    zero_retention w :
  file_ext filename ∉ supported_exts →
  ∃ shown w',
    process_file platform settings file_bytes filename document_type
                 zero_retention w
    = (Raise (ValueError ("Unsupported file type: ." +:+ shown)), w')
    ∧ store w' = store w
    ∧ ocr_calls w' = ocr_calls w
    ∧ (Py.contains "." filename = false → shown = "unknown")
    ∧ (∀ stem suffix : string,
         filename = stem +:+ "." +:+ suffix → Py.contains "." suffix = false →
         shown = if bool_decide (suffix = "") then "unknown"
                 else Py.lower suffix).
Proof.
  intros Hext. exists (Py.str_or (file_ext filename) "unknown").
  apply not_elem_of_cons in Hext as [Hpdf Hext].
  apply not_elem_of_app in Hext as [Himage Hdocx].
  apply not_elem_of_cons in Hdocx as [Hdocx _].
  eexists. rewrite process_file_run. unfold extract_pages.
  rewrite !bool_decide_eq_false_2 by done.
  unfold raise. split; [reflexivity |]. simpl. repeat split.
  - intros Hdot. by rewrite file_ext_no_dot.
  - intros stem suffix -> Hdot. rewrite file_ext_after_last_dot by done.
    unfold Py.str_or. destruct suffix as [|c suffix]; [done |].
    rewrite bool_decide_eq_false_2 by done.
    by rewrite bool_decide_eq_false_2.
Qed.

(** C2: the [full_text] of every response that [process_file] returns is the
    texts of its pages, in page order, joined by two line feeds: nothing for
    no page, the text itself for one page, and for more pages the first
    text, two line feeds (character 10 twice), and the rest joined likewise. *)
Theorem full_text_is_join file_bytes filename document_type zero_retention
    w resp w' :
  process_file platform settings file_bytes filename document_type
               zero_retention w = (Ok resp, w') →
  let blank_line := String "010" (String "010" EmptyString) in
  full_text resp = Py.join blank_line (text <$> pages resp)
  ∧ (pages resp = [] → full_text resp = "")
  ∧ (∀ p, pages resp = [p] → full_text resp = text p)
  ∧ (∀ p q, pages resp = [p; q] →
            full_text resp = text p +:+ blank_line +:+ text q)
  ∧ (∀ p q rest, pages resp = p :: q :: rest →
       full_text resp
       = text p +:+ blank_line
         +:+ Py.join blank_line (text <$> q :: rest)).
Proof.
  rewrite process_file_run.
  destruct (extract_pages _ _ _ _) as [[extracted | e] w1]; [| done].
  destruct (apply_retention _ _ _ _ _ _) as [[[] | e] w2]; [| done].
  intros [= <- _] blank_line. simpl pages. simpl full_text.
  split; [done |]. split; [by intros -> |]. split; [by intros p -> |].
  split; [by intros p q -> |]. by intros p q rest ->.
Qed.

(** *** Images and DOCX documents *)


(** *** PDF documents *)

Lemma embedded_text_blank (page : PdfPage Image) :
  embedded_text page = "" ↔ blank_layer page = true.
Proof.
  unfold embedded_text, blank_layer.
  destruct (text_layer page) as [[s |] | e]; [apply strip_empty_iff | done..].
Qed.

Lemma embedded_text_layer (page : PdfPage Image) :
  blank_layer page = false →
  ∃ s, text_layer page = Ok (Some s) ∧ embedded_text page = Py.strip s.
Proof.
  unfold embedded_text, blank_layer.
  destruct (text_layer page) as [[s |] | e]; [eauto | done..].
Qed.

Lemma extract_pdf_page_ok i (page : PdfPage Image) w p w' :
  extract_pdf_page platform i page w = (Ok p, w') →
  page_number p = i + 1
  ∧ page_text_ok platform page p
  ∧ ocr_calls w' = ocr_calls w ++ engine_input page.
Proof.
  unfold extract_pdf_page, page_text_ok, engine_input. unfold_monad.
  case_bool_decide as Hempty.
  - apply embedded_text_blank in Hempty as ->.
    destruct (render_to_pil page render_scale) as [pil | e]; [| done].
    rewrite ocr_image_run.
    destruct (preprocess pil) as [image' | e]; [| done].
    destruct (ocr_outcome platform pil) as [t | e] eqn:Ho; [| done].
    intros [= <- <-]. simpl. eauto.
  - destruct (blank_layer page) eqn:Hblank.
    { by apply embedded_text_blank in Hblank. }
    intros [= <- <-]. simpl. rewrite app_nil_r.
    split; [done |]. split; [| done]. by apply embedded_text_layer.
Qed.

Lemma extract_pdf_pages_ok (pdf : list (PdfPage Image)) i w pages w' :
  extract_pdf_pages platform i pdf w = (Ok pages, w') →
  page_number <$> pages = seqZ (i + 1) (Z.of_nat (length pdf))
  ∧ Forall2 (page_text_ok platform) pdf pages
  ∧ ocr_calls w' = ocr_calls w ++ (pdf ≫= engine_input).
Proof.
  revert i w pages w'.
  induction pdf as [|page rest IH]; intros i w pages w'; simpl.
  - unfold_monad. intros [= <- <-]. by rewrite app_nil_r.
  - unfold_monad.
    destruct (extract_pdf_page platform i page w) as [[p | e] w1] eqn:E1;
      [| done].
    destruct (extract_pdf_pages platform (i + 1) rest w1) as [[ps | e] w2]
      eqn:E2; [| done].
    intros [= <- <-].
    apply extract_pdf_page_ok in E1 as (Hn & Ht & Hc).
    apply IH in E2 as (Hns & Hts & Hcs).
    split; [| split].
    + rewrite seqZ_cons by lia. rewrite fmap_cons, Hn, Hns.
      f_equal. f_equal; lia.
    + by constructor.
    + rewrite Hcs, Hc. by rewrite <- app_assoc.
Qed.

Lemma extract_pdf_pages_returns (pdf : list (PdfPage Image)) i w :
  (∀ page, page ∈ pdf → blank_layer page = true →
     ∃ pil t, render_to_pil page render_scale = Ok pil
              ∧ ocr_outcome platform pil = Ok t) →
  ∃ pages w', extract_pdf_pages platform i pdf w = (Ok pages, w').
Proof.
  revert i w. induction pdf as [|page rest IH]; intros i w Hocr; simpl.
  - unfold_monad. eauto.
  - unfold_monad.
    assert (∃ p w1, extract_pdf_page platform i page w = (Ok p, w1))
      as (p & w1 & ->).
    { unfold extract_pdf_page. unfold_monad. case_bool_decide as Hempty;
        [| eauto].
      apply embedded_text_blank in Hempty.
      destruct (Hocr page) as (pil & t & -> & Ho); [left | done |].
      rewrite ocr_image_run, Ho. unfold ocr_outcome in Ho.
      destruct (preprocess pil); [eauto | done]. }
    destruct (IH (i + 1) w1) as (ps & w2 & ->); [| eauto].
    intros page' Hin. apply Hocr. by right.
Qed.

(** C1, amended: for a PDF that opens, extraction returns as soon as every
    page without a usable text layer can be rasterized and read by the OCR
    strategy; what it returns is one page per source page, numbered 1..N in
    document order; a page whose text layer is readable and not blank gets
    the layer with the white space at both ends trimmed off, and adds no call
    of the engine; a page whose layer is absent, unreadable or blank is
    rasterized at scale 300/72 and gets the output of the OCR strategy. *)
Theorem extract_from_pdf_pages file_bytes (pdf : list (PdfPage Image)) w :
  pdf_document platform file_bytes = Ok pdf →
  ((∀ page, page ∈ pdf → blank_layer page = true →
      ∃ pil t, render_to_pil page render_scale = Ok pil
               ∧ ocr_outcome platform pil = Ok t) →
   ∃ pages w', extract_from_pdf platform file_bytes w = (Ok pages, w'))
  ∧ (∀ pages w', extract_from_pdf platform file_bytes w = (Ok pages, w') →
       length pages = length pdf
       ∧ page_number <$> pages = seqZ 1 (Z.of_nat (length pdf))
       ∧ (∀ (k : nat) page p, pdf !! k = Some page → pages !! k = Some p →
            page_number p = Z.of_nat k + 1
            ∧ if blank_layer page
              then ∃ pil, render_to_pil page render_scale = Ok pil
                          ∧ ocr_outcome platform pil = Ok (text p)
              else engine_input page = []
                   ∧ ∃ s, text_layer page = Ok (Some s)
                          ∧ text p = Py.strip s ∧ text p ≠ "")
       ∧ ocr_calls w' = ocr_calls w ++ (pdf ≫= engine_input)).
Proof.
  intros Hpdf. unfold extract_from_pdf. unfold_monad. rewrite Hpdf. split.
  - apply extract_pdf_pages_returns.
  - intros pages w' Hrun.
    apply extract_pdf_pages_ok in Hrun as (Hns & Hts & Hcs).
    split; [symmetry; by eapply Forall2_length |]. split; [done |].
    split; [| done]. intros k page p Hpage Hp. split.
    + assert (page_number <$> pages !! k = Some (page_number p)) as Hk
        by (by rewrite Hp).
      rewrite <- list_lookup_fmap, Hns in Hk.
      apply lookup_seqZ in Hk as [-> _]. lia.
    + pose proof (Forall2_lookup_lr _ _ _ _ _ _ Hts Hpage Hp) as Hok.
      unfold page_text_ok, engine_input in *.
      destruct (blank_layer page) eqn:Hblank; [done |].
      split; [done |]. destruct Hok as (s & Hs & Ht). exists s.
      split; [done |]. split; [done |]. rewrite Ht. intros Hstrip.
      apply strip_empty_iff in Hstrip. unfold blank_layer in Hblank.
      rewrite Hs in Hblank. congruence.
Qed.

(** *** The upscaling step of the preprocessing *)

(** An image whose longer side has 1000 pixels or more keeps its size. *)
Lemma preprocess_keeps_large image (w h : Z) :
  image_size image = (w, h) → 1000 ≤ Z.max w h →
  ∃ image', preprocess image = Ok image' ∧ image_size image' = (w, h).
Proof.
  intros Hsize Hmax. unfold preprocess. rewrite image_size_convert_L, Hsize.
  rewrite bool_decide_eq_false_2 by lia. eexists. split; [done |].
  by rewrite image_size_sharpen, image_size_autocontrast, image_size_convert_L.
Qed.

Lemma long_side_upscaled_table :
  forallb (λ m, is_999_or_1000 (long_side_upscaled m)) (seqZ 1 999) = true.
Proof. vm_compute. reflexivity. Qed.

(** Below the floor the longer side comes out at 1000 pixels or one pixel
    short of it: the quotient [1000 / m] is rounded to a binary64 value, and
    the product is truncated. *)
Lemma long_side_upscaled_range (m : Z) :
  1 ≤ m < 1000 →
  long_side_upscaled m = Ok 999 ∨ long_side_upscaled m = Ok 1000.
Proof.
  intros Hm. pose proof long_side_upscaled_table as Htable.
  rewrite forallb_forall in Htable.
  assert (In m (seqZ 1 999)) as Hin
    by (apply list_elem_of_In, elem_of_seqZ; lia).
  specialize (Htable m Hin).
  destruct (long_side_upscaled m) as [k | e]; simpl in Htable; [| done].
  apply orb_prop in Htable as [Hk | Hk];
    apply bool_decide_eq_true_1 in Hk as ->; auto.
Qed.

(** C9 on a 19 by 19 image: the longer side is below the floor, and the
    image that reaches the engine has 999 pixels a side, not 1000. *)
Theorem upscale_misses_floor image :
  image_size image = (19, 19) →
  ∃ image', preprocess image = Ok image' ∧ image_size image' = (999, 999).
Proof.
  intros Hsize. unfold preprocess. rewrite image_size_convert_L, Hsize.
  rewrite bool_decide_eq_true_2 by done.
  assert (upscaled_size 19 19 = Ok (999, 999)) as -> by (vm_compute; reflexivity).
  eexists. split; [done |].
  rewrite image_size_sharpen, image_size_autocontrast.
  by apply image_size_resize.
Qed.

(** *** The retention store *)

Lemma apply_retention_store filename file_bytes w :
  apply_retention platform settings false filename file_bytes w
  = match write_fault platform (store w) (sanitize_filename filename) file_bytes with
    | None =>
        (Ok (), with_store (<[sanitize_filename filename := file_bytes]> (store w)) w)
    | Some (e, left_over) => (Raise e, with_store left_over w)
    end.
Proof.
  unfold apply_retention, save_unique_by_name, write_bytes. unfold_monad. simpl.
  by destruct (write_fault platform (store w) (sanitize_filename filename)
                 file_bytes) as [[e left_over] |].
Qed.

Lemma delete_if_exists_run filename w :
  delete_if_exists platform filename w
  = match unlink_fault platform (store w) (sanitize_filename filename) with
    | None => (Ok (), with_store (delete (sanitize_filename filename) (store w)) w)
    | Some _ => (Ok (), w)
    end.
Proof.
  unfold delete_if_exists, unlink_missing_ok. unfold_monad.
  by destruct (unlink_fault platform (store w) (sanitize_filename filename)).
Qed.

Lemma apply_retention_delete filename file_bytes w :
  apply_retention platform settings true filename file_bytes w
  = delete_if_exists platform filename w.
Proof. reflexivity. Qed.

(** A run that returns with the retention flag off has just written the
    bytes under the sanitised name, and touched no other name. *)
Lemma process_file_stores file_bytes filename document_type zero_retention
    w resp w' :
  default (ZERO_RETENTION_DEFAULT settings) zero_retention = false →
  process_file platform settings file_bytes filename document_type
               zero_retention w = (Ok resp, w') →
  store w' = <[sanitize_filename filename := file_bytes]> (store w).
Proof.
  intros Hzr. rewrite process_file_run, Hzr.
  pose proof (extract_pages_store (file_ext filename) file_bytes
                (Build_World (store w) (ocr_calls w) (S (jobs w)))) as Hstore.
  destruct (extract_pages _ _ _ _) as [[pages | e] w1]; [| done].
  rewrite apply_retention_store. simpl in Hstore.
  destruct (write_fault _ _ _ _) as [[e left_over] |]; [done |].
  intros [= _ <-]. simpl. by rewrite Hstore.
Qed.

(** A run that returns with the retention flag on has unlinked the
    sanitised name, unless the unlink failed, which leaves the directory as
    it was. *)
Lemma process_file_deletes file_bytes filename document_type zero_retention
    w resp w' :
  default (ZERO_RETENTION_DEFAULT settings) zero_retention = true →
  process_file platform settings file_bytes filename document_type
               zero_retention w = (Ok resp, w') →
  store w'
  = match unlink_fault platform (store w) (sanitize_filename filename) with
    | None => delete (sanitize_filename filename) (store w)
    | Some _ => store w
    end.
Proof.
  intros Hzr. rewrite process_file_run, Hzr.
  pose proof (extract_pages_store (file_ext filename) file_bytes
                (Build_World (store w) (ocr_calls w) (S (jobs w)))) as Hstore.
  destruct (extract_pages _ _ _ _) as [[pages | e] w1]; [| done].
  rewrite apply_retention_delete, delete_if_exists_run.
  simpl in Hstore. rewrite Hstore.
  destruct (unlink_fault _ _ _); intros [= _ <-]; by simpl.
Qed.

(** C5, amended: under a sanitised name the upload directory holds at most
    one blob. Two runs for the same filename that both return a response
    with the retention flag off leave under that name the bytes of the second
    run, and no other name changes; a run that returns a response with the
    flag on leaves no blob under that name, whatever was there, provided the
    unlink did not fail (a failed unlink is swallowed, the run returns all
    the same and the directory stays as it was); deleting where no blob
    exists changes nothing and is no error. *)
Theorem retention_store_one_blob filename document_type w :
  (∀ bytes1 bytes2 zr1 zr2 resp1 w1 resp2 w2,
     default (ZERO_RETENTION_DEFAULT settings) zr1 = false →
     default (ZERO_RETENTION_DEFAULT settings) zr2 = false →
     process_file platform settings bytes1 filename document_type zr1 w
     = (Ok resp1, w1) →
     process_file platform settings bytes2 filename document_type zr2 w1
     = (Ok resp2, w2) →
     store w2 !! sanitize_filename filename = Some bytes2
     ∧ ∀ other, other ≠ sanitize_filename filename →
                store w2 !! other = store w !! other)
  ∧ (∀ file_bytes zr resp w',
       default (ZERO_RETENTION_DEFAULT settings) zr = true →
       process_file platform settings file_bytes filename document_type zr w
       = (Ok resp, w') →
       unlink_fault platform (store w) (sanitize_filename filename) = None →
       store w' !! sanitize_filename filename = None
       ∧ ∀ other, other ≠ sanitize_filename filename →
                  store w' !! other = store w !! other)
  ∧ (store w !! sanitize_filename filename = None →
     ∃ w', delete_if_exists platform filename w = (Ok (), w')
           ∧ store w' = store w).
Proof.
  split; [| split].
  - intros bytes1 bytes2 zr1 zr2 resp1 w1 resp2 w2 Hzr1 Hzr2 Hrun1 Hrun2.
    apply process_file_stores in Hrun1; [| done].
    apply process_file_stores in Hrun2; [| done].
    rewrite Hrun2, Hrun1. split; [apply lookup_insert_eq |].
    intros other Hother. by rewrite !lookup_insert_ne.
  - intros file_bytes zr resp w' Hzr Hrun Hfault.
    apply process_file_deletes in Hrun; [| done].
    rewrite Hfault in Hrun. rewrite Hrun. split; [apply lookup_delete_eq |].
    intros other Hother. by rewrite lookup_delete_ne.
  - intros Hnone. rewrite delete_if_exists_run.
    destruct (unlink_fault _ _ _); eexists; (split; [done |]); [done |].
    simpl. by apply delete_id.
Qed.

(** *** Failures of the retention store *)

(** C4 at a write that fails: the pages were extracted, the retention flag
    is off, [write_bytes] raises, and [process_file] raises with it instead
    of returning the pages. *)
Theorem write_fault_fails_process_file file_bytes filename document_type
    zero_retention w pages w1 e left_over :
  default (ZERO_RETENTION_DEFAULT settings) zero_retention = false →
  extract_pages platform (file_ext filename) file_bytes
                (Build_World (store w) (ocr_calls w) (S (jobs w)))
  = (Ok pages, w1) →
  write_fault platform (store w) (sanitize_filename filename) file_bytes
  = Some (e, left_over) →
  (process_file platform settings file_bytes filename document_type
                zero_retention w).1 = Raise e.
Proof.
  intros Hzr Hpages Hfault. rewrite process_file_run, Hzr.
  pose proof (extract_pages_store (file_ext filename) file_bytes
                (Build_World (store w) (ocr_calls w) (S (jobs w)))) as Hstore.
  rewrite Hpages in *. simpl in Hstore.
  rewrite apply_retention_store, Hstore, Hfault. done.
Qed.

(** The sibling path behaves as the specification asks: with the retention
    flag on, a failing unlink is swallowed, and the run returns the pages
    that were extracted. *)
Lemma unlink_fault_is_swallowed file_bytes filename document_type
    zero_retention w extracted w1 :
  default (ZERO_RETENTION_DEFAULT settings) zero_retention = true →
  extract_pages platform (file_ext filename) file_bytes
                (Build_World (store w) (ocr_calls w) (S (jobs w)))
  = (Ok extracted, w1) →
  ∃ resp w',
    process_file platform settings file_bytes filename document_type
                 zero_retention w = (Ok resp, w')
    ∧ pages resp = extracted
    ∧ full_text resp = Py.join Py.LFLF (text <$> extracted).
Proof.
  intros Hzr Hpages. rewrite process_file_run, Hzr, Hpages.
  rewrite apply_retention_delete, delete_if_exists_run.
  destruct (unlink_fault _ _ _); eauto.
Qed.

(** *** The batch coordinator *)

Lemma accepted_true (f : UploadFile) :
  accepted settings f = true ↔
  upload_contents f ≠ []
  ∧ ¬ max_bytes settings < Z.of_nat (length (upload_contents f)).
Proof.
  unfold accepted. rewrite bool_decide_eq_true.
  split; intros [? ?]; split; (done || lia).
Qed.

Lemma registered_names_snoc (earlier : list UploadFile) (f : UploadFile) :
  registered_names settings (earlier ++ [f])
  = if accepted settings f
    then {[filename_or_document f]} ∪ registered_names settings earlier
    else registered_names settings earlier.
Proof.
  unfold registered_names. rewrite filter_app.
  destruct (accepted settings f) eqn:Hf.
  - rewrite filter_cons_True, filter_nil by done.
    rewrite fmap_app, list_to_set_app_L. simpl. set_solver.
  - rewrite filter_cons_False, filter_nil by (rewrite Hf; done).
    by rewrite app_nil_r.
Qed.

Lemma registered_names_cons (f : UploadFile) (rest : list UploadFile) :
  registered_names settings (f :: rest)
  = if accepted settings f
    then {[filename_or_document f]} ∪ registered_names settings rest
    else registered_names settings rest.
Proof.
  unfold registered_names. destruct (accepted settings f) eqn:Hf.
  - by rewrite filter_cons_True.
  - by rewrite filter_cons_False by (rewrite Hf; done).
Qed.

Lemma hashes_after_snoc (earlier : list UploadFile) (f : UploadFile)
    (names : gset string) :
  hashes_after platform settings names (earlier ++ [f])
  = (if accepted settings f
        && negb (bool_decide (filename_or_document f
                              ∈ names ∪ registered_names settings earlier))
     then {[sha256_bytes platform (upload_contents f)]} else ∅)
    ∪ hashes_after platform settings names earlier.
Proof.
  revert names. induction earlier as [|g earlier IH]; intros names; simpl.
  - replace (names ∪ registered_names settings []) with names
      by (unfold registered_names; set_solver).
    destruct (_ && _); set_solver.
  - rewrite registered_names_cons.
    destruct (accepted settings g) eqn:Hg; simpl.
    + case_bool_decide as Hin; simpl.
      * rewrite IH.
        replace (names ∪ ({[filename_or_document g]}
                          ∪ registered_names settings earlier))
          with (names ∪ registered_names settings earlier) by set_solver.
        done.
      * rewrite IH.
        replace ({[filename_or_document g]} ∪ names
                 ∪ registered_names settings earlier)
          with (names ∪ ({[filename_or_document g]}
                         ∪ registered_names settings earlier)) by set_solver.
        destruct (_ && _); set_solver.
    + by rewrite IH.
Qed.

Lemma registered_hashes_snoc (earlier : list UploadFile) (f : UploadFile) :
  registered_hashes platform settings (earlier ++ [f])
  = if accepted settings f
       && negb (bool_decide (filename_or_document f
                             ∈ registered_names settings earlier))
    then {[sha256_bytes platform (upload_contents f)]}
         ∪ registered_hashes platform settings earlier
    else registered_hashes platform settings earlier.
Proof.
  unfold registered_hashes. rewrite hashes_after_snoc.
  replace (∅ ∪ registered_names settings earlier)
    with (registered_names settings earlier) by set_solver.
  destruct (_ && _); set_solver.
Qed.

(** One turn of the loop, for locals that hold what the earlier files
    registered: the sets become what the longer prefix registers, and the
    results grow by the item that the specification describes. *)
Lemma batch_file_step document_type zr (earlier : list UploadFile)
    (f : UploadFile) (st : BatchLocals) w :
  seen_names st = registered_names settings earlier →
  seen_hashes st = registered_hashes platform settings earlier →
  let run := process_file platform settings (upload_contents f)
               (filename_or_document f) document_type (Some zr) w in
  ∃ st' w',
    batch_file platform settings document_type zr f st w = (st', w')
    ∧ seen_names st' = registered_names settings (earlier ++ [f])
    ∧ seen_hashes st' = registered_hashes platform settings (earlier ++ [f])
    ∧ batch_results st'
      = batch_results st ++ [item_of platform settings earlier f run.1].
Proof.
  intros Hnames Hhashes run. unfold batch_file, item_of.
  rewrite registered_names_snoc, registered_hashes_snoc.
  rewrite <- Hnames, <- Hhashes.
  destruct (accepted settings f) eqn:Hacc.
  - apply accepted_true in Hacc as [Hne Hsize].
    rewrite !(bool_decide_eq_false_2 (upload_contents f = [])) by done.
    rewrite !(bool_decide_eq_false_2 (max_bytes settings < _)) by done.
    case_bool_decide as Hname; simpl.
    { eexists _, _. split; [done |]. simpl. split; [set_solver | done]. }
    case_bool_decide as Hhash; simpl.
    + eexists _, _. split; [done |]. simpl. split; [done |].
      split; [set_solver | done].
    + fold run. destruct run as [[resp | [msg | msg]] w']; simpl;
        eexists _, _; (split; [done |]); simpl; done.
  - assert (Hrej : upload_contents f = []
                   ∨ max_bytes settings < Z.of_nat (length (upload_contents f))).
    { destruct (decide (upload_contents f = [])) as [? | Hne]; [by left |].
      right. destruct (decide (max_bytes settings
                               < Z.of_nat (length (upload_contents f))));
        [done |].
      assert (accepted settings f = true) by (by apply accepted_true).
      congruence. }
    simpl. case_bool_decide; [eauto 10 |].
    destruct Hrej as [? | Hbig]; [done |].
    rewrite !bool_decide_eq_true_2 by done. eauto 10.
Qed.

Lemma batch_loop_snoc document_type zr (files : list UploadFile)
    (f : UploadFile) (st : BatchLocals) w :
  batch_loop platform settings document_type zr (files ++ [f]) st w
  = batch_file platform settings document_type zr f
      (batch_loop platform settings document_type zr files st w).1
      (batch_loop platform settings document_type zr files st w).2.
Proof. unfold batch_loop. by rewrite foldl_snoc. Qed.

(** The invariant of the loop of [extract_batch]. *)
Lemma batch_loop_items document_type zr (files : list UploadFile) w :
  let loop := batch_loop platform settings document_type zr in
  seen_names (loop files batch_start w).1 = registered_names settings files
  ∧ seen_hashes (loop files batch_start w).1
    = registered_hashes platform settings files
  ∧ length (batch_results (loop files batch_start w).1) = length files
  ∧ ∀ earlier f later, files = earlier ++ f :: later →
      batch_results (loop files batch_start w).1 !! length earlier
      = Some (item_of platform settings earlier f
                (process_file platform settings (upload_contents f)
                   (filename_or_document f) document_type (Some zr)
                   (loop earlier batch_start w).2).1).
Proof.
  intros loop. induction files as [|f files IH] using rev_ind.
  - repeat split. intros earlier f later Hnil. by destruct earlier.
  - destruct IH as (Hnames & Hhashes & Hlen & Hitems). unfold loop in *.
    rewrite batch_loop_snoc.
    destruct (batch_file_step document_type zr files f _
                (batch_loop platform settings document_type zr files
                            batch_start w).2 Hnames Hhashes)
      as (st' & w' & -> & Hn' & Hh' & Hr'). simpl.
    split; [done |]. split; [done |]. rewrite Hr'. split.
    + rewrite !length_app, Hlen. done.
    + intros earlier g later Hsplit.
      destruct later as [|x later _] using rev_ind.
      * apply app_inj_tail in Hsplit as [<- <-].
        rewrite lookup_app_r by lia. rewrite Hlen, Nat.sub_diag. done.
      * rewrite app_comm_cons, app_assoc in Hsplit.
        apply app_inj_tail in Hsplit as [Hfiles <-].
        rewrite lookup_app_l.
        -- by apply (Hitems earlier g later).
        -- rewrite Hlen, Hfiles, length_app. simpl. lia.
Qed.

(** C3: a batch within the ceiling returns one item per file, in input
    order, and the item of each file is the one that the ordered algorithm
    of the specification gives: an error item for empty bytes and for
    oversized bytes, neither of which registers anything; a skipped item
    with reason [duplicate_filename_in_batch] and no hash for a filename that
    an earlier accepted file registered, whatever the bytes; a skipped item
    with reason [duplicate_content_in_batch] and the shared hash for a
    content that an earlier file registered; and otherwise the response of
    [process_file], or an error item with its message when it raises. What
    the earlier files registered depends on their names and bytes only, not
    on how their extraction went, and the loop goes on after a failure. *)
Theorem extract_batch_items (files : list UploadFile) document_type
    zero_retention w :
  Z.of_nat (length files) ≤ MAX_DOCS_PER_BATCH settings →
  let zr := parse_bool zero_retention (ZERO_RETENTION_DEFAULT settings) in
  let world_before earlier :=
    (batch_loop platform settings document_type zr earlier batch_start w).2 in
  ∃ resp w',
    extract_batch platform settings files document_type zero_retention w
    = (Http200 resp, w')
    ∧ length (results resp) = length files
    ∧ ∀ earlier f later, files = earlier ++ f :: later →
        results resp !! length earlier
        = Some (item_of platform settings earlier f
                  (process_file platform settings (upload_contents f)
                     (filename_or_document f) document_type (Some zr)
                     (world_before earlier)).1).
Proof.
  intros Hceiling zr world_before. unfold extract_batch.
  rewrite bool_decide_eq_false_2 by lia. fold zr.
  destruct (batch_loop_items document_type zr files w)
    as (_ & _ & Hlen & Hitems).
  destruct (batch_loop platform settings document_type zr files batch_start w)
    as [st w'] eqn:Hloop.
  eexists _, _. split; [done |]. simpl in *. split; [done |]. apply Hitems.
Qed.

(** What the files before a file have registered, spelled out. *)
Lemma registered_names_elem (earlier : list UploadFile) (name : string) :
  name ∈ registered_names settings earlier ↔
  ∃ g, g ∈ earlier ∧ accepted settings g = true
       ∧ filename_or_document g = name.
Proof.
  unfold registered_names. rewrite elem_of_list_to_set, list_elem_of_fmap.
  split.
  - intros (g & -> & Hg). apply list_elem_of_filter in Hg as [? ?]. eauto.
  - intros (g & Hg & Hacc & <-). exists g. split; [done |].
    by apply list_elem_of_filter.
Qed.

Lemma registered_hashes_elem (earlier : list UploadFile) (h : string) :
  h ∈ registered_hashes platform settings earlier ↔
  ∃ before g after,
    earlier = before ++ g :: after
    ∧ accepted settings g = true
    ∧ (filename_or_document g ∉ registered_names settings before)
    ∧ sha256_bytes platform (upload_contents g) = h.
Proof.
  induction earlier as [|f earlier IH] using rev_ind.
  - split; [set_solver |]. intros (before & g & after & Hnil & _).
    by destruct before.
  - rewrite registered_hashes_snoc. split.
    + intros Hin.
      assert (h ∈ registered_hashes platform settings earlier
              ∨ (accepted settings f = true
                 ∧ (filename_or_document f ∉ registered_names settings earlier)
                 ∧ sha256_bytes platform (upload_contents f) = h))
        as [Hold | (Hacc & Hnew & Hh)].
      { destruct (accepted settings f); simpl in Hin; [| by left].
        case_bool_decide; simpl in Hin; [by left |].
        apply elem_of_union in Hin as [Hin | Hin]; [| by left].
        apply elem_of_singleton in Hin. by right. }
      * apply IH in Hold as (before & g & after & -> & ?).
        exists before, g, (after ++ [f]).
        split; [by rewrite <- app_assoc |]. done.
      * exists earlier, f, []. done.
    + intros (before & g & after & Hsplit & Hacc & Hnew & Hh).
      destruct after as [|x after _] using rev_ind.
      * apply app_inj_tail in Hsplit as [<- <-]. rewrite Hacc. simpl.
        rewrite bool_decide_eq_false_2 by done. simpl. set_solver.
      * rewrite app_comm_cons, app_assoc in Hsplit.
        apply app_inj_tail in Hsplit as [-> <-].
        assert (h ∈ registered_hashes platform settings (before ++ g :: after))
          as Hold by (apply IH; eauto 10).
        destruct (_ && _); set_solver.
Qed.

End PipelineProperties.

Lemma process_file_unsupported_witness :
  ∃ shown w',
    process_file demo_platform demo_settings demo_bytes "report.XYZ" "generic"
                 None empty_world
    = (Raise (ValueError ("Unsupported file type: ." +:+ shown)), w')
    ∧ store w' = store empty_world
    ∧ ocr_calls w' = ocr_calls empty_world
    ∧ (Py.contains "." "report.XYZ" = false → shown = "unknown")
    ∧ (∀ stem suffix : string,
         "report.XYZ" = stem +:+ "." +:+ suffix → Py.contains "." suffix = false →
         shown = if bool_decide (suffix = "") then "unknown"
                 else Py.lower suffix).
Proof.
  apply (process_file_unsupported demo_platform demo_settings demo_bytes
           "report.XYZ" "generic" None empty_world).
  apply (bool_decide_unpack _). vm_compute. exact I.
Defined.

Lemma full_text_is_join_witness :
  ∃ resp w',
    process_file demo_platform demo_settings demo_bytes "scan.pdf" "generic"
                 None empty_world = (Ok resp, w')
    ∧ text <$> pages resp
      = ["Invoice 42"; "page of 2550 pixels"; "page of 1000 pixels"]
    ∧ full_text resp
      = "Invoice 42

page of 2550 pixels

page of 1000 pixels".
Proof.
  eexists _, _. split; [vm_compute; reflexivity |]. split; [reflexivity |].
  refine (eq_trans
            (proj1 (full_text_is_join demo_platform demo_settings demo_bytes
                      "scan.pdf" "generic" None empty_world _ _ _)) _).
  - vm_compute. reflexivity.
  - reflexivity.
Defined.


(** C1, as stated, fails where it has the text layer used as it is: the
    first page of the example PDF has the layer ["  Invoice 42 "], readable
    and not blank, and its page text is ["Invoice 42"]. *)
Lemma pdf_text_layer_is_trimmed :
  ∃ page pages w',
    pdf_document demo_platform demo_bytes = Ok demo_pdf
    ∧ demo_pdf !! 0%nat = Some page
    ∧ text_layer page = Ok (Some "  Invoice 42 ")
    ∧ Py.strip "  Invoice 42 " ≠ ""
    ∧ extract_from_pdf demo_platform demo_bytes empty_world = (Ok pages, w')
    ∧ text <$> pages !! 0%nat = Some "Invoice 42"
    ∧ text <$> pages !! 0%nat ≠ Some "  Invoice 42 ".
Proof.
  eexists _, _, _. split; [reflexivity |]. split; [reflexivity |].
  split; [reflexivity |]. split; [vm_compute; discriminate |].
  split; [vm_compute; reflexivity |]. split; [reflexivity | discriminate].
Qed.

Lemma extract_from_pdf_pages_witness :
  ∃ pages w',
    extract_from_pdf demo_platform demo_bytes empty_world = (Ok pages, w')
    ∧ length pages = 3%nat
    ∧ page_number <$> pages = [1; 2; 3]
    ∧ ocr_calls w' = [(2550, 3300); (1000, 750)].
Proof.
  destruct (extract_from_pdf_pages demo_platform demo_bytes demo_pdf
              empty_world eq_refl) as [Hreturns Hpages].
  destruct Hreturns as (pages & w' & Hrun).
  - intros page Hin _.
    repeat (apply elem_of_cons in Hin as [-> | Hin];
            [eexists _, _; split; [reflexivity | vm_compute; reflexivity] |]).
    by apply elem_of_nil in Hin.
  - exists pages, w'. destruct (Hpages pages w' Hrun) as (Hlen & Hns & _ & Hcalls).
    split; [exact Hrun |]. split; [exact Hlen |]. split; [exact Hns |].
    rewrite Hcalls. vm_compute. reflexivity.
Defined.

Lemma upscale_misses_floor_witness :
  ∃ image' : Z * Z,
    preprocess (19, 19) = Ok image' ∧ image_size image' = (999, 999).
Proof. apply (upscale_misses_floor (19, 19)). reflexivity. Defined.

(** C5, as stated, fails in three ways. A zero-retention run whose unlink
    fails returns all the same, and the blob that was there is still there.
    A zero-retention run that raises before the retention step (here on a
    file type that is not supported) leaves the blob although nothing is
    wrong with the directory. And of two runs with retention enabled for the
    same filename, a second one that raises in extraction (here on empty
    bytes, which are no DOCX) leaves the bytes of the first. *)
Lemma failed_unlink_leaves_blob :
  (∃ resp w',
     process_file read_only_platform demo_settings demo_bytes "scan.docx"
                  "generic" (Some true) stale_world = (Ok resp, w')
     ∧ sanitize_filename "scan.docx" = "scan.docx"
     ∧ store w' !! "scan.docx" = Some other_bytes)
  ∧ (∃ e w',
       process_file demo_platform demo_settings demo_bytes "scan.xyz"
                    "generic" (Some true)
                    (Build_World {["scan.xyz" := other_bytes]} [] 0)
       = (Raise e, w')
       ∧ unlink_fault demo_platform {["scan.xyz" := other_bytes]} "scan.xyz"
         = None
       ∧ sanitize_filename "scan.xyz" = "scan.xyz"
       ∧ store w' !! "scan.xyz" = Some other_bytes)
  ∧ (∃ resp1 w1 e w2,
       process_file strict_platform demo_settings demo_bytes "scan.docx"
                    "generic" (Some false) empty_world = (Ok resp1, w1)
       ∧ process_file strict_platform demo_settings [] "scan.docx" "generic"
                      (Some false) w1 = (Raise e, w2)
       ∧ store w2 !! "scan.docx" = Some demo_bytes).
Proof.
  split; [| split].
  - eexists _, _. split; [vm_compute; reflexivity |].
    split; vm_compute; reflexivity.
  - eexists _, _. split; [vm_compute; reflexivity |].
    split; [reflexivity |]. split; vm_compute; reflexivity.
  - eexists _, _, _, _. split; [vm_compute; reflexivity |].
    split; vm_compute; reflexivity.
Qed.

Lemma retention_store_one_blob_witness :
  (∃ resp1 w1 resp2 w2,
     process_file demo_platform demo_settings demo_bytes "scan.docx" "generic"
                  (Some false) empty_world = (Ok resp1, w1)
     ∧ process_file demo_platform demo_settings other_bytes "scan.docx"
                    "generic" (Some false) w1 = (Ok resp2, w2)
     ∧ store w2 !! "scan.docx" = Some other_bytes)
  ∧ (∃ resp w',
       process_file demo_platform demo_settings demo_bytes "scan.docx"
                    "generic" None stale_world = (Ok resp, w')
       ∧ store w' !! "scan.docx" = None)
  ∧ (∃ w', delete_if_exists demo_platform "scan.docx" empty_world = (Ok (), w')
           ∧ store w' = store empty_world).
Proof.
  split; [| split].
  - eexists _, _, _, _. split; [vm_compute; reflexivity |].
    split; [vm_compute; reflexivity |].
    eapply (proj1 (retention_store_one_blob demo_platform demo_settings
                     "scan.docx" "generic" empty_world)
              demo_bytes other_bytes (Some false) (Some false));
      [reflexivity | reflexivity | vm_compute; reflexivity
      | vm_compute; reflexivity].
  - eexists _, _. split; [vm_compute; reflexivity |].
    eapply (proj1 (proj2 (retention_store_one_blob demo_platform demo_settings
                            "scan.docx" "generic" stale_world))
              demo_bytes None);
      [reflexivity | vm_compute; reflexivity | reflexivity].
  - apply (proj2 (proj2 (retention_store_one_blob demo_platform demo_settings
                           "scan.docx" "generic" empty_world))).
    reflexivity.
Defined.

Lemma write_fault_fails_process_file_witness :
  (process_file read_only_platform demo_settings demo_bytes "scan.docx"
                "generic" (Some false) empty_world).1
  = Raise (Exception "[Errno 13] Permission denied")
  ∧ pages_of_run
      (process_file demo_platform demo_settings demo_bytes "scan.docx"
                    "generic" (Some false) empty_world).1
    = [{| page_number := 1; text := "Title" +:+ Py.LF +:+ " body " |}].
Proof.
  split; [| vm_compute; reflexivity].
  eapply (write_fault_fails_process_file read_only_platform demo_settings
            demo_bytes "scan.docx" "generic" (Some false) empty_world);
    [reflexivity | vm_compute; reflexivity | vm_compute; reflexivity].
Defined.

(** The same failure seen from the single-file route: a document that was
    read without trouble is answered with status 500. *)
Example extract_text_write_fault_500 :
  (extract_text read_only_platform demo_settings
                {| upload_filename := Some "scan.docx";
                   upload_contents := demo_bytes |}
                "generic" (Some "false") empty_world).1
  = HTTPException 500 "[Errno 13] Permission denied".
Proof. vm_compute. reflexivity. Qed.

Lemma extract_batch_items_witness :
  ∃ resp w',
    extract_batch demo_platform demo_settings demo_batch "generic" None
                  empty_world = (Http200 resp, w')
    ∧ length (results resp) = 5%nat
    ∧ results resp !! 1%nat
      = Some {| filename := "a.docx"; file_hash := "";
                skipped_duplicate := true;
                reason := Some "duplicate_filename_in_batch";
                response := None; error := None |}
    ∧ results resp !! 2%nat
      = Some {| filename := "b.docx"; file_hash := "37-80-68-70";
                skipped_duplicate := true;
                reason := Some "duplicate_content_in_batch";
                response := None; error := None |}
    ∧ results resp !! 3%nat
      = Some {| filename := "e.docx"; file_hash := "";
                skipped_duplicate := false; reason := None;
                response := None; error := Some "Empty file" |}
    ∧ results resp !! 4%nat
      = Some {| filename := "u.xyz"; file_hash := "";
                skipped_duplicate := false; reason := None;
                response := None;
                error := Some "Unsupported file type: .xyz" |}.
Proof.
  destruct (extract_batch_items demo_platform demo_settings demo_batch
              "generic" None empty_world)
    as (resp & w' & Hrun & Hlen & Hitems).
  { vm_compute. discriminate. }
  exists resp, w'. split; [exact Hrun |]. split; [exact Hlen |].
  split; [| split; [| split]].
  - refine (eq_trans (Hitems (take 1 demo_batch) _ (drop 2 demo_batch)
                               eq_refl) _).
    vm_compute. reflexivity.
  - refine (eq_trans (Hitems (take 2 demo_batch) _ (drop 3 demo_batch)
                               eq_refl) _).
    vm_compute. reflexivity.
  - refine (eq_trans (Hitems (take 3 demo_batch) _ (drop 4 demo_batch)
                               eq_refl) _).
    vm_compute. reflexivity.
  - refine (eq_trans (Hitems (take 4 demo_batch) _ (drop 5 demo_batch)
                               eq_refl) _).
    vm_compute. reflexivity.
Defined.

(** * Further properties of the code *)

(** ** Characters and trimming *)

Lemma lower_char_idempotent (c : ascii) :
  Py.lower_char (Py.lower_char c) = Py.lower_char c.
Proof. destruct c as [[] [] [] [] [] [] [] []]; vm_compute; reflexivity. Qed.

Lemma lower_char_dot (c : ascii) : Py.lower_char c = "."%char → c = "."%char.
Proof.
  destruct c as [[] [] [] [] [] [] [] []]; vm_compute; intros H;
    first [reflexivity | discriminate H].
Qed.

Lemma isspace_lower_char (c : ascii) :
  Py.isspace c = true → Py.lower_char c = c.
Proof.
  destruct c as [[] [] [] [] [] [] [] []]; vm_compute; intros H;
    first [reflexivity | discriminate H].
Qed.

Lemma lower_idempotent (s : string) : Py.lower (Py.lower s) = Py.lower s.
Proof.
  induction s as [|c s IH]; simpl; [done |].
  by rewrite lower_char_idempotent, IH.
Qed.

Lemma rstrip_cons_nonspace c (t : string) :
  Py.isspace c = false → Py.rstrip (String c t) = String c (Py.rstrip t).
Proof. intros Hc. simpl. destruct (Py.rstrip t); by rewrite ?Hc. Qed.

Lemma lstrip_head (s : string) :
  Py.lstrip s = ""
  ∨ ∃ c t, Py.lstrip s = String c t ∧ Py.isspace c = false.
Proof.
  induction s as [|c s IH]; simpl; [by left |].
  destruct (Py.isspace c) eqn:Hc; [done | right; eauto].
Qed.

Lemma rstrip_idempotent (s : string) : Py.rstrip (Py.rstrip s) = Py.rstrip s.
Proof.
  induction s as [|c s IH]; simpl; [done |].
  destruct (Py.rstrip s) as [|d r] eqn:Hr.
  - destruct (Py.isspace c) eqn:Hc; simpl; [done | by rewrite Hc].
  - change (Py.rstrip (String c (String d r))) with
      (match Py.rstrip (String d r) with
       | "" => if Py.isspace c then "" else String c ""
       | String a b => String c (String a b)
       end).
    by rewrite IH.
Qed.

Lemma strip_idempotent (s : string) : Py.strip (Py.strip s) = Py.strip s.
Proof.
  unfold Py.strip. destruct (lstrip_head s) as [-> | (c & t & -> & Hc)];
    [done |].
  rewrite rstrip_cons_nonspace by done. simpl. rewrite Hc.
  rewrite rstrip_cons_nonspace by done. by rewrite rstrip_idempotent.
Qed.

Lemma all_safe_no_slash (s : string) :
  Py.all_chars safe_char s = true → Py.contains "/" s = false.
Proof.
  induction s as [|c s IH]; simpl; [done |].
  intros [Hc Hs]%andb_prop. rewrite (IH Hs), orb_false_r.
  apply bool_decide_eq_false_2. intros ->. vm_compute in Hc. discriminate Hc.
Qed.

Lemma sub_unsafe_runs_id in_run (name : string) :
  Py.all_chars safe_char name = true → sub_unsafe_runs in_run name = name.
Proof.
  revert in_run. induction name as [|c name IH]; intros in_run; simpl; [done |].
  intros [Hc Hn]%andb_prop. rewrite Hc. by rewrite IH.
Qed.

(** ** [sanitize_filename], continued *)

(** A sanitised name holds no path separator and no white space at either
    end, and sanitising it again gives it back, unless it is the single dot:
    [" ."] sanitises to ["."], which sanitises to ["document"]. *)
Theorem sanitize_filename_stable (filename : string) :
  Py.contains "/" (sanitize_filename filename) = false
  ∧ Py.strip (sanitize_filename filename) = sanitize_filename filename
  ∧ (sanitize_filename filename ≠ "." →
     sanitize_filename (sanitize_filename filename)
     = sanitize_filename filename).
Proof.
  pose proof (sanitize_filename_safe filename) as Hsafe.
  assert (Hstrip : Py.strip (sanitize_filename filename)
                   = sanitize_filename filename).
  { unfold sanitize_filename, Py.str_or. case_bool_decide; [done |].
    apply strip_idempotent. }
  split; [by apply all_safe_no_slash |]. split; [done |].
  intros Hdot. set (name := sanitize_filename filename) in *.
  unfold sanitize_filename at 1.
  rewrite path_name_plain by (by try apply all_safe_no_slash).
  rewrite sub_unsafe_runs_id, Hstrip by done.
  unfold Py.str_or. rewrite bool_decide_eq_false_2; [done |].
  unfold name, sanitize_filename, Py.str_or. by case_bool_decide.
Qed.

Lemma sanitize_filename_stable_witness :
  sanitize_filename (sanitize_filename "../tmp/my report (v2).PDF")
  = sanitize_filename "../tmp/my report (v2).PDF"
  ∧ sanitize_filename " ." = "."
  ∧ sanitize_filename (sanitize_filename " .") = "document".
Proof.
  split; [| split; reflexivity].
  apply (sanitize_filename_stable "../tmp/my report (v2).PDF").
  vm_compute. discriminate.
Defined.

(** ** [file_ext], continued *)

Lemma rsplit1_last_has_no_sep sep (s : string) :
  Py.contains sep (Py.rsplit1_last sep s) = false.
Proof.
  induction s as [|c s IH]; simpl; [done |].
  destruct (Py.contains sep s) eqn:Hs; [done |].
  case_bool_decide as Hc; [done |]. simpl. rewrite Hs.
  by rewrite bool_decide_eq_false_2.
Qed.

Lemma lower_keeps_no_dot (s : string) :
  Py.contains "." s = false → Py.contains "." (Py.lower s) = false.
Proof.
  induction s as [|c s IH]; simpl; [done |].
  intros [Hc Hs]%orb_false_elim. rewrite (IH Hs), orb_false_r.
  apply bool_decide_eq_false_2. intros Hdot%lower_char_dot.
  by rewrite bool_decide_eq_true_2 in Hc.
Qed.

(** The extension that [process_file] dispatches on is the text after the
    last dot, lower-cased: it is empty for a filename without a dot, it never
    holds a dot, and lower-casing it again changes nothing, so the case of
    the filename never matters. *)
Theorem file_ext_spec (filename : string) :
  (Py.contains "." filename = false → file_ext filename = "")
  ∧ (∀ stem suffix : string,
       filename = stem +:+ "." +:+ suffix → Py.contains "." suffix = false →
       file_ext filename = Py.lower suffix)
  ∧ Py.contains "." (file_ext filename) = false
  ∧ Py.lower (file_ext filename) = file_ext filename.
Proof.
  split; [apply file_ext_no_dot |]. split.
  { intros stem suffix -> Hs. by apply file_ext_after_last_dot. }
  unfold file_ext. destruct (Py.contains "." filename); [| done].
  split; [| apply lower_idempotent].
  apply lower_keeps_no_dot, rsplit1_last_has_no_sep.
Qed.

Lemma file_ext_spec_witness :
  file_ext "README" = ""
  ∧ file_ext "archive.tar.PdF" = "pdf"
  ∧ file_ext ".docx" = "docx".
Proof.
  split; [| split].
  - apply (proj1 (file_ext_spec "README")). reflexivity.
  - apply (proj1 (proj2 (file_ext_spec "archive.tar.PdF")) "archive.tar" "PdF");
      reflexivity.
  - apply (proj1 (proj2 (file_ext_spec ".docx")) "" "docx"); reflexivity.
Defined.

(** ** The two readers of the retention flag *)

(** An unset [ZERO_RETENTION_DEFAULT] turns zero retention on, and every
    spelling that turns it on in the environment (true, in any case) is also
    read as true by [parse_bool] when it comes as a request token. The
    converse does not hold: [1] is true as a token and false in the
    environment. *)
Theorem env_default_agrees_with_parse_bool :
  zero_retention_default_of_env None = true
  ∧ (∀ (v : string) (default : bool),
       zero_retention_default_of_env (Some v) = true →
       parse_bool (Some v) default = true)
  ∧ zero_retention_default_of_env (Some "1") = false
  ∧ parse_bool (Some "1") false = true.
Proof.
  split; [reflexivity |]. split; [| split; reflexivity].
  intros v default Henv. unfold zero_retention_default_of_env in Henv.
  apply bool_decide_eq_true_1 in Henv. simpl in Henv.
  destruct v as [|c1 [|c2 [|c3 [|c4 [|c5 v]]]]]; try discriminate Henv.
  simpl in Henv. injection Henv as H1 H2 H3 H4.
  assert (Hspace : ∀ c x, Py.lower_char c = x → Py.isspace x = false →
                          Py.isspace c = false).
  { intros c x Hc Hx. destruct (Py.isspace c) eqn:E; [| done].
    pose proof (isspace_lower_char c E) as Hsame. congruence. }
  assert (Py.isspace c1 = false) as S1 by (by eapply Hspace).
  assert (Py.isspace c4 = false) as S4 by (by eapply Hspace).
  unfold parse_bool. apply bool_decide_eq_true_2.
  assert (Py.strip (String c1 (String c2 (String c3 (String c4 ""))))
          = String c1 (String c2 (String c3 (String c4 "")))) as ->.
  { unfold Py.strip. simpl Py.lstrip. rewrite S1.
    rewrite rstrip_cons_nonspace by done. f_equal.
    simpl. rewrite S4. by destruct (Py.isspace c3), (Py.isspace c2). }
  simpl. rewrite H1, H2, H3, H4. apply (bool_decide_unpack _). vm_compute.
  exact I.
Qed.

Lemma env_default_agrees_with_parse_bool_witness :
  parse_bool (Some "TRUE") false = true.
Proof.
  apply (proj1 (proj2 env_default_agrees_with_parse_bool) "TRUE" false).
  reflexivity.
Defined.

(** ** [configure_tesseract], continued *)

(** [configure_tesseract] never points the engine at a path that does not
    exist: the command stays as it was or becomes an existing path. A
    non-empty [TESSERACT_CMD] that exists wins on every system, and off
    Windows nothing else can change the command. *)
Theorem configure_tesseract_spec (env_cmd : option string)
    (path_exists : string → bool) (system : string) (tesseract_cmd : string) :
  let cmd' := configure_tesseract env_cmd path_exists system tesseract_cmd in
  (cmd' = tesseract_cmd ∨ path_exists cmd' = true)
  ∧ (∀ cmd, env_cmd = Some cmd → cmd ≠ "" → path_exists cmd = true →
            cmd' = cmd)
  ∧ (Py.startswith "win" (Py.lower system) = false →
     cmd' = tesseract_cmd ∨ env_cmd = Some cmd').
Proof.
  unfold configure_tesseract. split; [| split].
  - destruct env_cmd as [cmd |].
    + destruct (negb (bool_decide (cmd = "")) && path_exists cmd) eqn:E.
      * apply andb_prop in E as [_ E]. by right.
      * destruct (Py.startswith _ _); [| by left].
        destruct (path_exists win_default) eqn:W; [by right | by left].
    + destruct (Py.startswith _ _); [| by left].
      destruct (path_exists win_default) eqn:W; [by right | by left].
  - intros cmd -> Hne Hex. rewrite Hex.
    by rewrite bool_decide_eq_false_2.
  - intros ->. destruct env_cmd as [cmd |]; [| by left].
    destruct (negb (bool_decide (cmd = "")) && path_exists cmd);
      [by right | by left].
Qed.

Lemma configure_tesseract_spec_witness :
  configure_tesseract (Some "/opt/tesseract/bin/tesseract")
    (λ p, bool_decide (p = "/opt/tesseract/bin/tesseract")) "Windows"
    "tesseract"
  = "/opt/tesseract/bin/tesseract"
  ∧ (configure_tesseract (Some "/missing") (λ _, false) "Linux" "tesseract"
     = "tesseract"
     ∨ Some "/missing"
       = Some (configure_tesseract (Some "/missing") (λ _, false) "Linux"
                                   "tesseract")).
Proof.
  split.
  - apply (proj1 (proj2 (configure_tesseract_spec
                           (Some "/opt/tesseract/bin/tesseract")
                           (λ p, bool_decide (p = "/opt/tesseract/bin/tesseract"))
                           "Windows" "tesseract")));
      [reflexivity | discriminate | reflexivity].
  - apply (proj2 (proj2 (configure_tesseract_spec (Some "/missing")
                           (λ _, false) "Linux" "tesseract"))).
    reflexivity.
Defined.

(** ** The extension of a sanitised name *)

Lemma contains_split_last sep (s : string) :
  Py.contains sep s = true →
  ∃ stem suffix, s = stem +:+ String sep suffix
                 ∧ Py.contains sep suffix = false.
Proof.
  induction s as [|c s IH]; simpl; [done |].
  destruct (Py.contains sep s) eqn:Hs.
  - intros _. destruct (IH eq_refl) as (stem & suffix & -> & Hsuffix).
    by exists (String c stem), suffix.
  - rewrite orb_false_r. intros ->%bool_decide_eq_true_1. by exists "", s.
Qed.

Lemma all_chars_impl (p q : ascii → bool) (s : string) :
  (∀ c, p c = true → q c = true) →
  Py.all_chars p s = true → Py.all_chars q s = true.
Proof.
  intros Hpq. induction s as [|c s IH]; simpl; [done |].
  intros [Hc Hs]%andb_prop. by rewrite (Hpq c Hc), IH.
Qed.

Lemma all_chars_lower (p : ascii → bool) (s : string) :
  Py.all_chars p (Py.lower s) = Py.all_chars (λ c, p (Py.lower_char c)) s.
Proof. induction s as [|c s IH]; simpl; [done | by rewrite IH]. Qed.

(** A character that lower-cases to one of a..z is a letter: it belongs to
    the class of the sanitiser, and is no white space, slash or dot. *)
Lemma letter_is_plain (c : ascii) :
  Py.in_range 97 122 (Py.lower_char c) = true →
  safe_char c = true ∧ negb (Py.isspace c) = true
  ∧ negb (bool_decide (c = "/"%char)) = true.
Proof.
  destruct c as [[] [] [] [] [] [] [] []]; vm_compute; intros H;
    first [discriminate H | done].
Qed.

Lemma supported_exts_letters (ext : string) :
  ext ∈ supported_exts →
  Py.all_chars (Py.in_range 97 122) ext = true ∧ ext ≠ "".
Proof.
  unfold supported_exts, image_exts. simpl. intros Hin.
  repeat (apply elem_of_cons in Hin as [-> | Hin]; [done |]).
  by apply elem_of_nil in Hin.
Qed.

Lemma split_append_tail sep (s t : string) :
  Py.contains sep t = false →
  ∃ before last_part,
    Py.split sep s = before ++ [last_part]
    ∧ Py.split sep (s +:+ t) = before ++ [last_part +:+ t].
Proof.
  intros Ht. induction s as [|c s IH]; str_simpl.
  - exists [], "". by rewrite (split_no_sep _ t Ht).
  - destruct IH as (before & last_part & Hs & Hst). rewrite Hs, Hst.
    case_bool_decide.
    + by exists ("" :: before), last_part.
    + destruct before as [|h r]; simpl.
      * by exists [], (String c last_part).
      * by exists (String c h :: r), last_part.
Qed.

Lemma path_name_keeps_tail (stem suffix : string) :
  Py.contains "/" suffix = false → suffix ≠ "" →
  ∃ base, Py.path_name (stem +:+ "." +:+ suffix) = base +:+ "." +:+ suffix.
Proof.
  intros Hslash Hne. unfold Py.path_name.
  destruct (split_append_tail "/" stem ("." +:+ suffix))
    as (before & last_part & _ & ->); [done |].
  exists last_part. rewrite filter_app, filter_cons_True, filter_nil.
  - apply last_last.
  - split; destruct last_part; str_simpl; try done.
    + intros [= ->]. done.
    + intros [= _ Hnil]. by destruct last_part.
Qed.

Lemma rstrip_nonspace_id (t : string) :
  Py.all_chars (λ c, negb (Py.isspace c)) t = true → Py.rstrip t = t.
Proof.
  induction t as [|c t IH]; [done |]. simpl Py.all_chars.
  intros [Hc Ht]%andb_prop. apply negb_true_iff in Hc.
  rewrite rstrip_cons_nonspace by done. by rewrite IH.
Qed.

Lemma rstrip_append_keep (y t : string) :
  Py.all_chars (λ c, negb (Py.isspace c)) t = true → t ≠ "" →
  Py.rstrip (y +:+ t) = y +:+ t.
Proof.
  intros Ht Hne. induction y as [|d y IH]; str_simpl.
  - by apply rstrip_nonspace_id.
  - rewrite IH. destruct (y +:+ t) eqn:E; [| done].
    destruct y; str_simpl; [done | discriminate E].
Qed.

Lemma lstrip_append_keep (y : string) c (t : string) :
  Py.isspace c = false →
  ∃ y', Py.lstrip (y +:+ String c t) = y' +:+ String c t.
Proof.
  intros Hc. induction y as [|d y IH]; str_simpl.
  - exists "". by rewrite Hc.
  - destruct (Py.isspace d); [done |]. by exists (String d y).
Qed.

(** A filename with a supported extension keeps that extension through
    [sanitize_filename]: the blob is stored under a name of the same type as
    the one the response reports. *)
Theorem sanitize_filename_keeps_extension (filename : string) :
  file_ext filename ∈ supported_exts →
  file_ext (sanitize_filename filename) = file_ext filename.
Proof.
  intros Hext. pose proof (supported_exts_letters _ Hext) as [Hletters Hne].
  unfold file_ext in Hletters, Hne.
  destruct (Py.contains "." filename) eqn:Hdot; [| done].
  destruct (contains_split_last _ _ Hdot) as (stem & suffix & -> & Hsuffix).
  clear Hdot. rewrite rsplit1_last_append in Hletters, Hne by done.
  change (stem +:+ String "." suffix) with (stem +:+ "." +:+ suffix).
  rewrite (file_ext_after_last_dot stem suffix Hsuffix).
  rewrite all_chars_lower in Hletters.
  assert (suffix ≠ "") as Hsne by (by intros ->).
  assert (Py.all_chars safe_char suffix = true) as Hsafe
    by (apply (all_chars_impl _ _ _ (λ c Hc, proj1 (letter_is_plain c Hc))
                 Hletters)).
  assert (Py.all_chars (λ c, negb (Py.isspace c)) suffix = true) as Hns
    by (apply (all_chars_impl _ _ _
                 (λ c Hc, proj1 (proj2 (letter_is_plain c Hc))) Hletters)).
  assert (Py.contains "/" suffix = false) as Hslash
    by (by apply all_safe_no_slash).
  unfold sanitize_filename.
  destruct (path_name_keeps_tail stem suffix Hslash Hsne) as (base & ->).
  rewrite sub_unsafe_runs_append.
  rewrite (sub_unsafe_runs_id _ ("." +:+ suffix)) by (str_simpl; done).
  unfold Py.strip. str_simpl.
  destruct (lstrip_append_keep (sub_unsafe_runs false base) "." suffix eq_refl)
    as (y' & ->).
  rewrite rstrip_append_keep by (done || (simpl; done)).
  unfold Py.str_or. rewrite bool_decide_eq_false_2.
  - by apply (file_ext_after_last_dot y' suffix).
  - by destruct y'.
Qed.

Lemma sanitize_filename_keeps_extension_witness :
  file_ext (sanitize_filename "C:/scans/ my scan #3 .TIFF") = "tiff".
Proof.
  refine (eq_trans (sanitize_filename_keeps_extension
                      "C:/scans/ my scan #3 .TIFF" _) _).
  - apply (bool_decide_unpack _). vm_compute. exact I.
  - reflexivity.
Defined.

(** ** The orchestrator, continued *)

Section MoreProperties.

Context {Image : Type} {imaging : Imaging Image}.
Context (platform : Platform Image) (settings : Settings).

Implicit Types (w : World Image) (image : Image).

Ltac unfold_monad :=
  unfold mbind, M_bind, mret, M_ret, lift, raise, try_except in *.

Lemma ocr_outcome_trimmed image (t : string) :
  ocr_outcome platform image = Ok t → Py.strip t = t.
Proof.
  unfold ocr_outcome. destruct (preprocess image) as [image' | e]; [| done].
  destruct (image_to_string platform image') as [raw | e]; [| done].
  intros [= <-]. apply strip_idempotent.
Qed.

Lemma extract_from_image_single file_bytes w pages w' :
  extract_from_image platform file_bytes w = (Ok pages, w') →
  ∃ image t, image_open platform file_bytes = Ok image
             ∧ ocr_outcome platform image = Ok t
             ∧ pages = [{| page_number := 1; text := t |}].
Proof.
  unfold extract_from_image. unfold_monad.
  destruct (image_open platform file_bytes) as [image | e]; [| done].
  rewrite ocr_image_run. destruct (preprocess image) as [image' | e]; [| done].
  destruct (ocr_outcome platform image) as [t | e] eqn:Ho; [| done].
  intros [= <- _]. eauto.
Qed.

Lemma extract_from_docx_run file_bytes w :
  extract_from_docx platform file_bytes w
  = (match docx_paragraphs platform file_bytes with
     | Ok doc =>
         Ok [{| page_number := 1;
                text := Py.join Py.LF (filter (λ p, Py.strip p ≠ "") doc) |}]
     | Raise e => Raise e
     end, w).
Proof.
  unfold extract_from_docx. unfold_monad.
  by destruct (docx_paragraphs platform file_bytes).
Qed.

Lemma apply_retention_ocr_calls zr filename file_bytes w :
  ocr_calls (apply_retention platform settings zr filename file_bytes w).2
  = ocr_calls w
  ∧ jobs (apply_retention platform settings zr filename file_bytes w).2
    = jobs w.
Proof.
  destruct zr.
  - rewrite apply_retention_delete, delete_if_exists_run.
    by destruct (unlink_fault _ _ _).
  - rewrite apply_retention_store.
    by destruct (write_fault _ _ _ _) as [[e left_over] |].
Qed.

(** When [process_file] raises, either the upload directory is as it was,
    or the retention flag is off and the exception is the one that
    [write_bytes] raised: [process_file] never fails because of a delete, and
    a failed extraction stores and deletes nothing. *)
Theorem process_file_raise_origin file_bytes filename document_type
    zero_retention w e w' :
  process_file platform settings file_bytes filename document_type
               zero_retention w = (Raise e, w') →
  store w' = store w
  ∨ (default (ZERO_RETENTION_DEFAULT settings) zero_retention = false
     ∧ write_fault platform (store w) (sanitize_filename filename) file_bytes
       = Some (e, store w')).
Proof.
  rewrite process_file_run.
  pose proof (extract_pages_store platform (file_ext filename) file_bytes
                (Build_World (store w) (ocr_calls w) (S (jobs w)))) as Hstore.
  destruct (extract_pages _ _ _ _) as [[extracted | e1] w1]; simpl in Hstore.
  - destruct (default (ZERO_RETENTION_DEFAULT settings) zero_retention).
    + rewrite apply_retention_delete, delete_if_exists_run.
      by destruct (unlink_fault _ _ _).
    + rewrite apply_retention_store, Hstore.
      destruct (write_fault _ _ _ _) as [[e2 left_over] |] eqn:Hfault;
        [| done].
      intros [= <- <-]. by right.
  - intros [= _ <-]. by left.
Qed.

(** The pages and the text of a response depend on the bytes and the
    filename only: not on the retention flag, the document type, the upload
    directory or the jobs run before. *)
Theorem pages_independent_of_retention file_bytes filename
    document_type1 document_type2 zero_retention1 zero_retention2
    w1 w2 resp1 resp2 w1' w2' :
  process_file platform settings file_bytes filename document_type1
               zero_retention1 w1 = (Ok resp1, w1') →
  process_file platform settings file_bytes filename document_type2
               zero_retention2 w2 = (Ok resp2, w2') →
  pages resp1 = pages resp2 ∧ full_text resp1 = full_text resp2.
Proof.
  rewrite !process_file_run.
  pose proof (extract_pages_any_world platform (file_ext filename) file_bytes
                (Build_World (store w1) (ocr_calls w1) (S (jobs w1)))
                (Build_World (store w2) (ocr_calls w2) (S (jobs w2)))) as Hsame.
  destruct (extract_pages _ _ _ _) as [[pages1 | e1] v1]; [| done].
  destruct (extract_pages _ _ _ _) as [[pages2 | e2] v2]; [| done].
  simpl in Hsame. injection Hsame as ->.
  destruct (apply_retention _ _ _ _ _ v1) as [[[] | e1] u1]; [| done].
  destruct (apply_retention _ _ _ _ _ v2) as [[[] | e2] u2]; [| done].
  by intros [= <- _] [= <- _].
Qed.

(** Every page text that comes out of a PDF or an image is trimmed: it has
    no white space at either end, whether it was read from the text layer or
    by the OCR strategy. *)
Theorem ocr_page_texts_trimmed file_bytes filename document_type
    zero_retention w resp w' :
  file_ext filename ∈ "pdf" :: image_exts →
  process_file platform settings file_bytes filename document_type
               zero_retention w = (Ok resp, w') →
  ∀ p, p ∈ pages resp → Py.strip (text p) = text p.
Proof.
  intros Hext. rewrite process_file_run.
  destruct (extract_pages _ _ _ _) as [[extracted | e] w1] eqn:Hpages;
    [| done].
  destruct (apply_retention _ _ _ _ _ _) as [[[] | e] w2]; [| done].
  intros [= <- _] p Hp. simpl in Hp. unfold extract_pages in Hpages.
  case_bool_decide as Hpdf.
  - unfold extract_from_pdf in Hpages. unfold_monad.
    destruct (pdf_document platform file_bytes) as [pdf | e]; [| done].
    apply extract_pdf_pages_ok in Hpages as (_ & Hok & _).
    apply list_elem_of_lookup in Hp as [k Hk].
    destruct (Forall2_lookup_r _ _ _ _ _ Hok Hk) as (page & _ & Hpage).
    unfold page_text_ok in Hpage. destruct (blank_layer page).
    + destruct Hpage as (pil & _ & Ho). by eapply ocr_outcome_trimmed.
    + destruct Hpage as (s & _ & ->). apply strip_idempotent.
  - apply elem_of_cons in Hext as [? | Hext]; [done |].
    rewrite bool_decide_eq_true_2 in Hpages by done.
    apply extract_from_image_single in Hpages as (image & t & _ & Ho & ->).
    apply list_elem_of_singleton in Hp as ->. simpl.
    by eapply ocr_outcome_trimmed.
Qed.

(** An image of no width and no height makes [ocr_image] raise on the
    division [1000 / max_side], before the engine is called. *)
Theorem ocr_image_zero_size image w :
  image_size image = (0, 0) →
  ocr_image platform image w = (Raise (Exception "division by zero"), w).
Proof.
  intros Hsize. rewrite ocr_image_run. unfold preprocess.
  by rewrite image_size_convert_L, Hsize.
Qed.

(** A square image below the floor reaches the engine as a square of 999 or
    of 1000 pixels a side, never anything else. *)
Theorem square_image_upscaled image (m : Z) :
  image_size image = (m, m) → 1 ≤ m < 1000 →
  ∃ image' k, preprocess image = Ok image'
              ∧ image_size image' = (k, k) ∧ (k = 999 ∨ k = 1000).
Proof.
  intros Hsize Hm. unfold preprocess. rewrite image_size_convert_L, Hsize.
  rewrite Z.max_id, bool_decide_eq_true_2 by lia.
  unfold upscaled_size. rewrite Z.max_id.
  pose proof (long_side_upscaled_range m Hm) as Hk.
  unfold long_side_upscaled in Hk.
  destruct (upscale_factor m) as [scale | e]; [| by destruct Hk].
  assert (∃ k, scaled m scale = Ok k ∧ (k = 999 ∨ k = 1000)) as (k & -> & Hk')
    by (destruct Hk as [-> | ->]; eauto).
  unfold resize. rewrite bool_decide_eq_false_2 by (simpl; lia).
  eexists _, k. split; [done |]. split; [| done].
  rewrite image_size_sharpen, image_size_autocontrast.
  apply image_size_resize; lia.
Qed.

(** An image whose longer side has 1000 pixels or more is never resized:
    the one image handed to the engine has the size of the input. *)
Theorem large_image_not_resized image (width height : Z) w :
  image_size image = (width, height) → 1000 ≤ Z.max width height →
  ∃ image', ocr_calls (ocr_image platform image w).2 = ocr_calls w ++ [image']
            ∧ image_size image' = (width, height).
Proof.
  intros Hsize Hmax. rewrite ocr_image_run.
  destruct (preprocess_keeps_large image width height Hsize Hmax)
    as (image' & -> & Hsize').
  by exists image'.
Qed.

(** For an image or a DOCX input the response has one page, numbered 1,
    its [full_text] is the text of that page, with no separator added, and
    the metadata count one page. *)
Theorem single_page_full_text file_bytes filename document_type
    zero_retention w resp w' :
  file_ext filename ∈ image_exts ++ ["docx"] →
  process_file platform settings file_bytes filename document_type
               zero_retention w = (Ok resp, w') →
  ∃ p, pages resp = [p] ∧ page_number p = 1
       ∧ full_text resp = text p ∧ num_pages (metadata resp) = 1.
Proof.
  intros Hext. rewrite process_file_run.
  destruct (extract_pages _ _ _ _) as [[extracted | e] w1] eqn:Hpages;
    [| done].
  destruct (apply_retention _ _ _ _ _ _) as [[[] | e] w2]; [| done].
  intros [= <- _]. simpl.
  assert (∃ t, extracted = [{| page_number := 1; text := t |}]) as [t ->];
    [| by eexists].
  unfold extract_pages in Hpages.
  assert (file_ext filename ≠ "pdf") as Hpdf.
  { intros E. rewrite E in Hext. revert Hext.
    apply (bool_decide_unpack _). vm_compute. exact I. }
  rewrite bool_decide_eq_false_2 in Hpages by done.
  case_bool_decide as Himage.
  - apply extract_from_image_single in Hpages as (? & t & _ & _ & ->). eauto.
  - apply elem_of_app in Hext as [? | Hext]; [done |].
    apply list_elem_of_singleton in Hext.
    rewrite bool_decide_eq_true_2 in Hpages by done.
    rewrite extract_from_docx_run in Hpages.
    destruct (docx_paragraphs platform file_bytes); [| done].
    injection Hpages as <- _. eauto.
Qed.

(** What a response says about its own run: the status is success, the
    document type is echoed, the file type is the extension, which is one of
    the eight supported ones, the page count is the number of pages, the
    retention flag is the one in effect, and exactly one job was started. *)
Theorem response_metadata file_bytes filename doc_type zero_retention
    w resp w' :
  process_file platform settings file_bytes filename doc_type
               zero_retention w = (Ok resp, w') →
  status resp = "success"
  ∧ document_type resp = doc_type
  ∧ job_id resp = uuid4 platform (jobs w)
  ∧ file_name (metadata resp) = filename
  ∧ file_type (metadata resp) = file_ext filename
  ∧ file_ext filename ∈ supported_exts
  ∧ num_pages (metadata resp) = Z.of_nat (length (pages resp))
  ∧ engine (metadata resp) = "tesseract"
  ∧ meta_zero_retention (metadata resp)
    = default (ZERO_RETENTION_DEFAULT settings) zero_retention
  ∧ jobs w' = S (jobs w).
Proof.
  rewrite process_file_run.
  pose proof (extract_pages_same_files platform (file_ext filename) file_bytes
                (Build_World (store w) (ocr_calls w) (S (jobs w))))
    as [_ Hjobs].
  destruct (extract_pages _ _ _ _) as [[extracted | e] w1] eqn:Hpages;
    [| done].
  pose proof (apply_retention_ocr_calls
                (default (ZERO_RETENTION_DEFAULT settings) zero_retention)
                filename file_bytes w1) as [_ Hjobs2].
  destruct (apply_retention _ _ _ _ _ _) as [[[] | e] w2]; [| done].
  intros [= <- <-]. simpl in *. repeat split; [| congruence].
  unfold extract_pages, supported_exts in *.
  case_bool_decide as Hpdf; [rewrite Hpdf; by left |]. right.
  apply elem_of_app. case_bool_decide as Himage; [by left |]. right.
  case_bool_decide as Hdocx; [| done]. rewrite Hdocx. by left.
Qed.

(** A DOCX input never reaches the OCR engine, whether [process_file]
    returns or raises. *)
Theorem docx_never_calls_engine file_bytes filename document_type
    zero_retention w :
  file_ext filename = "docx" →
  ocr_calls (process_file platform settings file_bytes filename document_type
                          zero_retention w).2 = ocr_calls w.
Proof.
  intros Hext. rewrite process_file_run, Hext. unfold extract_pages.
  rewrite bool_decide_eq_false_2 by done.
  rewrite bool_decide_eq_false_2
    by (apply (bool_decide_unpack _); vm_compute; exact I).
  rewrite bool_decide_eq_true_2 by done. rewrite extract_from_docx_run.
  destruct (docx_paragraphs platform file_bytes) as [doc | e]; [| done].
  pose proof (apply_retention_ocr_calls
                (default (ZERO_RETENTION_DEFAULT settings) zero_retention)
                filename file_bytes
                (Build_World (store w) (ocr_calls w) (S (jobs w))))
    as [Hcalls _].
  by destruct (apply_retention _ _ _ _ _ _) as [[[] | e] w2].
Qed.

End MoreProperties.

(** ** Paths of the upload directory *)

Lemma join_cons_cons sep (p q : string) (rest : list string) :
  Py.join sep (p :: q :: rest) = p +:+ sep +:+ Py.join sep (q :: rest).
Proof. reflexivity. Qed.

(** Joining what a split gave restores the string. *)
Lemma join_split sep (s : string) :
  Py.join (String sep "") (Py.split sep s) = s.
Proof.
  induction s as [|c s IH]; simpl Py.split; [done |].
  pose proof (split_not_nil sep s) as Hne.
  destruct (Py.split sep s) as [|h r] eqn:E; [done |].
  case_bool_decide as Hc.
  - rewrite join_cons_cons, IH. str_simpl. by rewrite Hc.
  - destruct r as [|q r].
    + simpl in *. by rewrite IH.
    + rewrite join_cons_cons in IH |- *. rewrite append_cons. by rewrite IH.
Qed.

Lemma join_snoc sep (l : list string) (x : string) :
  l ≠ [] → Py.join sep (l ++ [x]) = Py.join sep l +:+ sep +:+ x.
Proof.
  induction l as [|p l IH]; [done |]. intros _.
  destruct l as [|q l]; [done |].
  change ((p :: q :: l) ++ [x]) with (p :: q :: (l ++ [x])).
  rewrite !join_cons_cons.
  change (q :: l ++ [x]) with ((q :: l) ++ [x]).
  rewrite IH by done. by rewrite !append_assoc.
Qed.

Lemma no_slash_not_absolute (s : string) :
  Py.contains "/" s = false → Py.startswith "/" s = false.
Proof.
  destruct s as [|c s]; [done |]. simpl.
  intros [Hc _]%orb_false_elim. apply bool_decide_eq_false_1 in Hc.
  rewrite bool_decide_eq_false_2; [done |]. congruence.
Qed.

Lemma relative_path_root (dir : string) :
  Py.startswith "/" dir = false → Py.path_root dir = "".
Proof.
  unfold Py.path_root. intros Hrel. rewrite Hrel.
  destruct dir as [|c dir]; [done |]. simpl in *.
  by destruct (bool_decide ("/"%char = c)).
Qed.

(** For a relative directory whose components are all kept, and a plain
    name, the path is the directory, a slash, and the name. *)
Lemma path_join_str_plain (dir name : string) :
  Py.startswith "/" dir = false →
  Py.path_parts dir = Py.split "/" dir →
  Py.contains "/" name = false → name ≠ "" → name ≠ "." →
  Py.path_join_str dir name = dir +:+ "/" +:+ name.
Proof.
  intros Hrel Hparts Hslash Hne Hdot. unfold Py.path_join_str.
  rewrite (no_slash_not_absolute name Hslash), (relative_path_root dir Hrel).
  assert (Py.path_parts name = [name]) as ->.
  { unfold Py.path_parts.
    by rewrite (split_no_sep _ name Hslash), filter_cons_True. }
  rewrite Hparts. pose proof (split_not_nil "/" dir) as Hsplit.
  rewrite <- (join_split "/" dir) at 2.
  destruct (Py.split "/" dir) as [|h r]; [done |].
  cbn [app]. change (h :: (r ++ [name])) with ((h :: r) ++ [name]).
  by rewrite join_snoc, append_nil_l.
Qed.

Lemma sanitize_filename_nonempty (filename : string) :
  sanitize_filename filename ≠ "".
Proof. unfold sanitize_filename, Py.str_or. by case_bool_decide. Qed.

(** ** The retention store and the routes, continued *)

Section StoreAndRoutes.

Context {Image : Type} {imaging : Imaging Image}.
Context (platform : Platform Image) (settings : Settings).

Implicit Types (w : World Image) (image : Image).

Ltac unfold_monad :=
  unfold mbind, M_bind, mret, M_ret, lift, raise, try_except in *.

(** Two uploads whose filenames differ but sanitise to the same name share
    one blob: after both are stored, the directory is what storing the second
    alone would have left, and the bytes of the first are gone. *)
Theorem colliding_names_overwrite filename1 filename2 bytes1 bytes2
    document_type1 document_type2 zr1 zr2 w resp1 w1 resp2 w2 :
  sanitize_filename filename1 = sanitize_filename filename2 →
  default (ZERO_RETENTION_DEFAULT settings) zr1 = false →
  default (ZERO_RETENTION_DEFAULT settings) zr2 = false →
  process_file platform settings bytes1 filename1 document_type1 zr1 w
  = (Ok resp1, w1) →
  process_file platform settings bytes2 filename2 document_type2 zr2 w1
  = (Ok resp2, w2) →
  store w2 = <[sanitize_filename filename2 := bytes2]> (store w)
  ∧ store w2 !! sanitize_filename filename1 = Some bytes2.
Proof.
  intros Hsame Hzr1 Hzr2 Hrun1 Hrun2.
  apply process_file_stores in Hrun1; [| done].
  apply process_file_stores in Hrun2; [| done].
  rewrite Hrun2, Hrun1, Hsame, insert_insert_eq.
  split; [done | apply lookup_insert_eq].
Qed.

(** [delete_if_exists] never raises and never adds or changes a blob: the
    directory afterwards is part of the directory before, every other name is
    as it was, and neither the engine nor the job counter is touched. *)
Theorem delete_if_exists_never_raises filename w :
  ∃ w', delete_if_exists platform filename w = (Ok (), w')
        ∧ store w' ⊆ store w
        ∧ (∀ other, other ≠ sanitize_filename filename →
                    store w' !! other = store w !! other)
        ∧ ocr_calls w' = ocr_calls w ∧ jobs w' = jobs w.
Proof.
  rewrite delete_if_exists_run.
  destruct (unlink_fault _ _ _); eexists; (split; [done |]); simpl.
  - done.
  - split; [apply delete_subseteq |]. split; [| done].
    intros other Hother. by rewrite lookup_delete_ne.
Qed.

(** Saving and then deleting under the same filename: the save leaves the
    bytes under the sanitised name and returns the path of the blob, which
    is [UPLOAD_DIR/name] when the upload directory is a relative path with no
    empty and no dot component and the name is not a single dot; the delete
    that follows, when the unlink goes through, leaves the directory without
    that name and otherwise as it was before the save. *)
Theorem save_then_delete filename file_bytes w path w1 :
  save_unique_by_name platform settings filename file_bytes w = (Ok path, w1) →
  unlink_fault platform (store w1) (sanitize_filename filename) = None →
  (Py.startswith "/" (UPLOAD_DIR settings) = false →
   Py.path_parts (UPLOAD_DIR settings) = Py.split "/" (UPLOAD_DIR settings) →
   sanitize_filename filename ≠ "." →
   path = UPLOAD_DIR settings +:+ "/" +:+ sanitize_filename filename)
  ∧ store w1 !! sanitize_filename filename = Some file_bytes
  ∧ ∃ w2, delete_if_exists platform filename w1 = (Ok (), w2)
          ∧ store w2 = delete (sanitize_filename filename) (store w).
Proof.
  unfold save_unique_by_name, write_bytes. unfold_monad.
  destruct (write_fault _ _ _ _) as [[e left_over] |]; [done |].
  intros [= <- <-] Hfault. simpl in *. split.
  { intros Hrel Hparts Hdot. apply path_join_str_plain; try done.
    - apply all_safe_no_slash, sanitize_filename_safe.
    - apply sanitize_filename_nonempty. }
  split; [apply lookup_insert_eq |].
  rewrite delete_if_exists_run. simpl. rewrite Hfault. eexists.
  split; [done |]. simpl. apply delete_insert_eq.
Qed.

Lemma unsupported_extension_raises file_bytes filename document_type
    zero_retention w :
  file_ext filename ∉ supported_exts →
  process_file platform settings file_bytes filename document_type
               zero_retention w
  = (Raise (ValueError ("Unsupported file type: ."
                        +:+ Py.str_or (file_ext filename) "unknown")),
     Build_World (store w) (ocr_calls w) (S (jobs w))).
Proof.
  intros Hext.
  apply not_elem_of_cons in Hext as [Hpdf Hext].
  apply not_elem_of_app in Hext as [Himage Hdocx].
  apply not_elem_of_cons in Hdocx as [Hdocx _].
  rewrite process_file_run. unfold extract_pages.
  by rewrite !bool_decide_eq_false_2 by done.
Qed.

(** The single-file route answers 200, 400 or 500 and nothing else. It
    answers 400 to an empty upload and to an oversized one before anything is
    started, and 400 to a file of an unsupported type, naming the extension,
    with the upload directory and the engine untouched. *)
Theorem extract_text_bad_request (file : UploadFile) document_type
    zero_retention w :
  let run := extract_text platform settings file document_type
               zero_retention w in
  (upload_contents file = [] → run = (HTTPException 400 "Empty file", w))
  ∧ (upload_contents file ≠ [] →
     max_bytes settings < Z.of_nat (length (upload_contents file)) →
     run = (HTTPException 400 (size_message settings), w))
  ∧ (upload_contents file ≠ [] →
     Z.of_nat (length (upload_contents file)) ≤ max_bytes settings →
     file_ext (filename_or_document file) ∉ supported_exts →
     run.1 = HTTPException 400
               ("Unsupported file type: ."
                +:+ Py.str_or (file_ext (filename_or_document file)) "unknown")
     ∧ store run.2 = store w ∧ ocr_calls run.2 = ocr_calls w)
  ∧ match run.1 with
    | Http200 _ => True
    | HTTPException status_code _ => status_code = 400 ∨ status_code = 500
    end.
Proof.
  intros run. unfold run, extract_text. split; [| split; [| split]].
  - intros Hempty. by rewrite bool_decide_eq_true_2.
  - intros Hne Hbig. rewrite bool_decide_eq_false_2 by done.
    by rewrite bool_decide_eq_true_2.
  - intros Hne Hsize Hext. rewrite bool_decide_eq_false_2 by done.
    rewrite bool_decide_eq_false_2 by lia.
    by rewrite unsupported_extension_raises.
  - repeat case_bool_decide; simpl; [by left | by left |].
    destruct (process_file _ _ _ _ _ _ _) as [[resp | [msg | msg]] w'];
      simpl; auto.
Qed.

(** A batch of one file and the single-file route agree: run from the same
    world they leave the same world, a response of the route is the response
    of the batch item, and an error of the route, whatever its status, is the
    error message of the batch item. *)
Theorem batch_of_one_agrees (file : UploadFile) document_type
    zero_retention w :
  1 ≤ MAX_DOCS_PER_BATCH settings →
  let single := extract_text platform settings file document_type
                  zero_retention w in
  extract_batch platform settings [file] document_type zero_retention w
  = (Http200
       {| batch_status := "success";
          batch_document_type := document_type;
          zero_retention := parse_bool zero_retention
                           (ZERO_RETENTION_DEFAULT settings);
          max_docs_allowed := MAX_DOCS_PER_BATCH settings;
          results :=
            [match single.1 with
             | Http200 resp =>
                 response_item (filename_or_document file)
                   (sha256_bytes platform (upload_contents file)) resp
             | HTTPException _ detail =>
                 error_item (filename_or_document file) detail
             end] |},
     single.2).
Proof.
  intros Hmax single. unfold single, extract_batch, extract_text.
  rewrite bool_decide_eq_false_2 by (simpl; lia).
  unfold batch_loop. simpl foldl. unfold batch_file. simpl.
  repeat case_bool_decide; try done; try set_solver.
  destruct (process_file _ _ _ _ _ _ _) as [[resp | [msg | msg]] w']; done.
Qed.

End StoreAndRoutes.

(** ** The batch coordinator, continued *)

Section BatchProperties.

Context {Image : Type} {imaging : Imaging Image}.
Context (platform : Platform Image) (settings : Settings).

Implicit Types (w : World Image) (files : list UploadFile).

Lemma extract_batch_ok files document_type zero_retention w resp w' :
  extract_batch platform settings files document_type zero_retention w
  = (Http200 resp, w') →
  let zr := parse_bool zero_retention (ZERO_RETENTION_DEFAULT settings) in
  results resp
  = batch_results
      (batch_loop platform settings document_type zr files batch_start w).1
  ∧ w' = (batch_loop platform settings document_type zr files batch_start w).2.
Proof.
  unfold extract_batch. case_bool_decide; [done |].
  destruct (batch_loop _ _ _ _ _ _ _) as [st w1]. by intros [= <- <-].
Qed.

(** The item at position [k] is the item of the [k]-th file, given the files
    before it. *)
Lemma batch_item_at files document_type zero_retention w resp w' (k : nat)
    (item : OCRBatchItem) :
  extract_batch platform settings files document_type zero_retention w
  = (Http200 resp, w') →
  results resp !! k = Some item →
  ∃ f run, files !! k = Some f
           ∧ item = item_of platform settings (take k files) f run.
Proof.
  intros Hrun Hitem. apply extract_batch_ok in Hrun as [Hres _].
  destruct (batch_loop_items platform settings document_type
              (parse_bool zero_retention (ZERO_RETENTION_DEFAULT settings))
              files w) as (_ & _ & Hlen & Hitems).
  rewrite Hres in Hitem. pose proof (lookup_lt_Some _ _ _ Hitem) as Hk.
  rewrite Hlen in Hk.
  destruct (lookup_lt_is_Some_2 files k Hk) as [f Hf].
  specialize (Hitems (take k files) f (drop (S k) files)
                (eq_sym (take_drop_middle _ _ _ Hf))).
  rewrite length_take_le in Hitems by lia.
  rewrite Hitems in Hitem. injection Hitem as <-. eauto.
Qed.

Lemma item_of_response (earlier : list UploadFile) (f : UploadFile)
    (run : result OCRResponse) :
  is_Some (response (item_of platform settings earlier f run)) →
  accepted settings f = true
  ∧ (filename_or_document f ∉ registered_names settings earlier)
  ∧ (sha256_bytes platform (upload_contents f)
     ∉ registered_hashes platform settings earlier)
  ∧ filename (item_of platform settings earlier f run)
    = filename_or_document f
  ∧ file_hash (item_of platform settings earlier f run)
    = sha256_bytes platform (upload_contents f).
Proof.
  unfold item_of. intros [r Hr]. revert Hr.
  repeat case_bool_decide; simpl; try done.
  destruct run; [| done]. intros _. repeat split; try done.
  apply accepted_true. split; [done | lia].
Qed.

(** In one batch no filename and no content is extracted twice: two items
    that carry a response differ in their filename and in their hash. *)
Theorem batch_extracts_once files document_type zero_retention w resp w'
    (i j : nat) (a b : OCRBatchItem) :
  extract_batch platform settings files document_type zero_retention w
  = (Http200 resp, w') →
  (i < j)%nat →
  results resp !! i = Some a → results resp !! j = Some b →
  is_Some (response a) → is_Some (response b) →
  filename a ≠ filename b ∧ file_hash a ≠ file_hash b.
Proof.
  intros Hrun Hij Ha Hb Hra Hrb.
  destruct (batch_item_at _ _ _ _ _ _ _ _ Hrun Ha) as (fa & runa & Hfa & ->).
  destruct (batch_item_at _ _ _ _ _ _ _ _ Hrun Hb) as (fb & runb & Hfb & ->).
  apply item_of_response in Hra as (Hacc & Hnew & _ & -> & ->).
  apply item_of_response in Hrb as (_ & Hnewb & Hhashb & -> & ->).
  assert (take j files !! i = Some fa) as Hin by (by rewrite lookup_take_lt).
  split.
  - intros Hsame. apply Hnewb. apply registered_names_elem.
    exists fa. split; [by eapply list_elem_of_lookup_2 | done].
  - intros Hsame. apply Hhashb. apply registered_hashes_elem.
    exists (take i files), fa, (drop (S i) (take j files)).
    split; [| done].
    rewrite <- (take_drop_middle _ _ _ Hin) at 1.
    by rewrite take_take, Nat.min_l by lia.
Qed.

(** Every item of a batch belongs to the file at its position, carries the
    name of that file, and has exactly one of four shapes, field by field: an
    error with an empty hash; a skipped duplicate with the reason
    [duplicate_filename_in_batch] and an empty hash; a skipped duplicate with
    the reason [duplicate_content_in_batch] and the hash of the file's bytes;
    or a response with the hash of the file's bytes, not skipped. *)
Theorem batch_item_shapes files document_type zero_retention w resp w'
    (k : nat) (item : OCRBatchItem) :
  extract_batch platform settings files document_type zero_retention w
  = (Http200 resp, w') →
  results resp !! k = Some item →
  ∃ f, files !! k = Some f
       ∧ filename item = filename_or_document f
       ∧ ((∃ msg, error item = Some msg ∧ file_hash item = ""
                  ∧ skipped_duplicate item = false ∧ reason item = None
                  ∧ response item = None)
          ∨ (skipped_duplicate item = true
             ∧ reason item = Some "duplicate_filename_in_batch"
             ∧ file_hash item = "" ∧ response item = None
             ∧ error item = None)
          ∨ (skipped_duplicate item = true
             ∧ reason item = Some "duplicate_content_in_batch"
             ∧ file_hash item = sha256_bytes platform (upload_contents f)
             ∧ response item = None ∧ error item = None)
          ∨ (∃ r, response item = Some r
                  ∧ file_hash item = sha256_bytes platform (upload_contents f)
                  ∧ skipped_duplicate item = false ∧ reason item = None
                  ∧ error item = None)).
Proof.
  intros Hrun Hk.
  destruct (batch_item_at _ _ _ _ _ _ _ _ Hrun Hk) as (f & run & Hf & ->).
  exists f. split; [done |]. unfold item_of.
  repeat case_bool_decide; [| | | | destruct run as [r | e]]; simpl;
    (split; [done |]).
  - left. eauto 10.
  - left. eauto 10.
  - right. left. done.
  - right. right. left. done.
  - right. right. right. eauto 10.
  - left. eauto 10.
Qed.

Lemma process_file_store_frame file_bytes filename document_type
    zero_retention w (key : string) :
  (∀ s p b, write_fault platform s p b = None) →
  key ≠ sanitize_filename filename →
  store (process_file platform settings file_bytes filename document_type
                      zero_retention w).2 !! key = store w !! key.
Proof.
  intros Hfault Hkey. rewrite process_file_run.
  pose proof (extract_pages_store platform (file_ext filename) file_bytes
                (Build_World (store w) (ocr_calls w) (S (jobs w)))) as Hstore.
  destruct (extract_pages _ _ _ _) as [[extracted | e] w1]; simpl in Hstore;
    [| simpl; by rewrite Hstore].
  destruct (default (ZERO_RETENTION_DEFAULT settings) zero_retention).
  - rewrite apply_retention_delete, delete_if_exists_run.
    destruct (unlink_fault _ _ _); simpl; rewrite Hstore; [done |].
    by rewrite lookup_delete_ne.
  - rewrite apply_retention_store, Hfault. simpl.
    by rewrite Hstore, lookup_insert_ne.
Qed.

Lemma batch_file_store_frame document_type zr (f : UploadFile)
    (st : BatchLocals) w (key : string) :
  (∀ s p b, write_fault platform s p b = None) →
  (accepted settings f = true →
   key ≠ sanitize_filename (filename_or_document f)) →
  store (batch_file platform settings document_type zr f st w).2 !! key
  = store w !! key.
Proof.
  intros Hfault Hkey. unfold batch_file. repeat case_bool_decide; try done.
  assert (key ≠ sanitize_filename (filename_or_document f)) as Hne
    by (apply Hkey, accepted_true; split; [done | lia]).
  pose proof (process_file_store_frame (upload_contents f)
                (filename_or_document f) document_type (Some zr) w key
                Hfault Hne) as Hframe.
  by destruct (process_file _ _ _ _ _ _ _) as [[resp | [msg | msg]] w1].
Qed.

(** On a platform whose writes go through, a batch touches no blob but
    those named after the files that passed the size checks: every other name
    of the upload directory holds after the batch what it held before. *)
Theorem batch_store_frame files document_type zero_retention w (key : string) :
  (∀ s p b, write_fault platform s p b = None) →
  (∀ f, f ∈ files → accepted settings f = true →
        key ≠ sanitize_filename (filename_or_document f)) →
  store (extract_batch platform settings files document_type
                       zero_retention w).2 !! key = store w !! key.
Proof.
  intros Hfault Hkey. unfold extract_batch. case_bool_decide; [done |].
  set (zr := parse_bool zero_retention (ZERO_RETENTION_DEFAULT settings)).
  assert (store (batch_loop platform settings document_type zr files
                            batch_start w).2 !! key = store w !! key)
    as Hloop.
  { clear H. induction files as [|f files IH] using rev_ind; [done |].
    rewrite batch_loop_snoc, batch_file_store_frame.
    - apply IH. intros g Hg. apply Hkey, elem_of_app. by left.
    - done.
    - apply Hkey, elem_of_app. right. by apply list_elem_of_singleton. }
  by destruct (batch_loop _ _ _ _ _ _ _) as [st w1].
Qed.

(** The batch route fails in one way only: it answers 400 exactly when the
    batch is over the ceiling, and then nothing has been read, stored, or
    handed to the engine; in every other case it answers 200 with the status
    success, the effective retention flag and the ceiling. *)
Theorem extract_batch_ceiling files doc_type token w :
  let run := extract_batch platform settings files doc_type token w in
  (MAX_DOCS_PER_BATCH settings < Z.of_nat (length files) →
   run = (HTTPException 400
            ("Too many files. Received "
             +:+ Py.str_int (Z.of_nat (length files))
             +:+ " but max allowed is "
             +:+ Py.str_int (MAX_DOCS_PER_BATCH settings) +:+ "."), w))
  ∧ (Z.of_nat (length files) ≤ MAX_DOCS_PER_BATCH settings →
     ∃ resp, run.1 = Http200 resp
             ∧ batch_status resp = "success"
             ∧ batch_document_type resp = doc_type
             ∧ zero_retention resp
               = parse_bool token (ZERO_RETENTION_DEFAULT settings)
             ∧ max_docs_allowed resp = MAX_DOCS_PER_BATCH settings
             ∧ length (results resp) = length files).
Proof.
  intros run. unfold run, extract_batch. split.
  - intros Hover. by rewrite bool_decide_eq_true_2.
  - intros Hunder. rewrite bool_decide_eq_false_2 by lia.
    destruct (batch_loop_items platform settings doc_type
                (parse_bool token (ZERO_RETENTION_DEFAULT settings))
                files w) as (_ & _ & Hlen & _).
    destruct (batch_loop _ _ _ _ _ _ _) as [st w1]. simpl in *.
    eexists. split; [done |]. simpl. done.
Qed.

End BatchProperties.

(** ** The further properties on the example platform *)

Lemma process_file_raise_origin_witness :
  ∃ e w',
    process_file read_only_platform demo_settings demo_bytes "scan.docx"
                 "generic" (Some false) stale_world = (Raise e, w')
    ∧ (store w' = store stale_world
       ∨ (default (ZERO_RETENTION_DEFAULT demo_settings) (Some false) = false
          ∧ write_fault read_only_platform (store stale_world)
              (sanitize_filename "scan.docx") demo_bytes
            = Some (e, store w'))).
Proof.
  eexists _, _. split; [vm_compute; reflexivity |].
  eapply (process_file_raise_origin read_only_platform demo_settings
            demo_bytes "scan.docx" "generic" (Some false) stale_world).
  vm_compute. reflexivity.
Defined.

Lemma pages_independent_of_retention_witness :
  pages_of_run (process_file demo_platform demo_settings demo_bytes "scan.pdf"
                             "invoice" (Some true) empty_world).1
  = pages_of_run (process_file demo_platform demo_settings demo_bytes
                               "scan.pdf" "generic" (Some false) stale_world).1.
Proof.
  destruct (process_file demo_platform demo_settings demo_bytes "scan.pdf"
              "invoice" (Some true) empty_world) as [[r1 | e1] w1] eqn:H1;
    [| vm_compute in H1; discriminate H1].
  destruct (process_file demo_platform demo_settings demo_bytes "scan.pdf"
              "generic" (Some false) stale_world) as [[r2 | e2] w2] eqn:H2;
    [| vm_compute in H2; discriminate H2].
  exact (proj1 (pages_independent_of_retention demo_platform demo_settings
                  demo_bytes "scan.pdf" "invoice" "generic" (Some true)
                  (Some false) empty_world stale_world r1 r2 w1 w2 H1 H2)).
Defined.

Lemma ocr_page_texts_trimmed_witness :
  Forall (λ p, Py.strip (text p) = text p)
         (pages_of_run
            (process_file demo_platform demo_settings demo_bytes "scan.pdf"
                          "generic" None empty_world).1).
Proof.
  apply Forall_forall.
  destruct (process_file demo_platform demo_settings demo_bytes "scan.pdf"
              "generic" None empty_world) as [[resp | e] w'] eqn:Hrun;
    [| vm_compute in Hrun; discriminate Hrun].
  apply (ocr_page_texts_trimmed demo_platform demo_settings demo_bytes
           "scan.pdf" "generic" None empty_world resp w'); [| exact Hrun].
  apply (bool_decide_unpack _). vm_compute. exact I.
Defined.

Lemma ocr_image_zero_size_witness :
  ocr_image demo_platform (0, 0) empty_world
  = (Raise (Exception "division by zero"), empty_world).
Proof.
  apply (ocr_image_zero_size demo_platform (0, 0) empty_world). reflexivity.
Defined.

Lemma square_image_upscaled_witness :
  ∃ (image' : Z * Z) k,
    preprocess (640, 640) = Ok image'
    ∧ image_size image' = (k, k) ∧ (k = 999 ∨ k = 1000).
Proof.
  apply (square_image_upscaled (640, 640) 640); [reflexivity | lia].
Defined.

Lemma large_image_not_resized_witness :
  ∃ image' : Z * Z,
    ocr_calls (ocr_image demo_platform (2550, 3300) empty_world).2
    = ocr_calls empty_world ++ [image']
    ∧ image_size image' = (2550, 3300).
Proof.
  apply (large_image_not_resized demo_platform (2550, 3300) 2550 3300
           empty_world); [reflexivity | vm_compute; discriminate].
Defined.

Lemma single_page_full_text_witness :
  ∃ resp w' p,
    process_file demo_platform demo_settings demo_bytes "photo.png" "generic"
                 None empty_world = (Ok resp, w')
    ∧ pages resp = [p] ∧ page_number p = 1
    ∧ full_text resp = text p ∧ num_pages (metadata resp) = 1.
Proof.
  destruct (process_file demo_platform demo_settings demo_bytes "photo.png"
              "generic" None empty_world) as [[resp | e] w'] eqn:Hrun;
    [| vm_compute in Hrun; discriminate Hrun].
  destruct (single_page_full_text demo_platform demo_settings demo_bytes
              "photo.png" "generic" None empty_world resp w') as (p & Hp);
    [apply (bool_decide_unpack _); vm_compute; exact I | exact Hrun |].
  exists resp, w', p. split; [reflexivity | exact Hp].
Defined.

Lemma response_metadata_witness :
  ∃ resp w',
    process_file demo_platform demo_settings demo_bytes "scan.pdf" "invoice"
                 None empty_world = (Ok resp, w')
    ∧ file_type (metadata resp) = "pdf"
    ∧ num_pages (metadata resp) = Z.of_nat (length (pages resp))
    ∧ meta_zero_retention (metadata resp) = true
    ∧ jobs w' = 1%nat.
Proof.
  destruct (process_file demo_platform demo_settings demo_bytes "scan.pdf"
              "invoice" None empty_world) as [[resp | e] w'] eqn:Hrun;
    [| vm_compute in Hrun; discriminate Hrun].
  destruct (response_metadata demo_platform demo_settings demo_bytes
              "scan.pdf" "invoice" None empty_world resp w' Hrun)
    as (_ & _ & _ & _ & Htype & _ & Hnum & _ & Hzr & Hjobs).
  exists resp, w'. split; [reflexivity |]. split; [exact Htype |].
  split; [exact Hnum |]. split; [exact Hzr | exact Hjobs].
Defined.

Lemma docx_never_calls_engine_witness :
  ocr_calls (process_file demo_platform demo_settings demo_bytes "notes.DOCX"
                          "generic" None empty_world).2 = [].
Proof.
  apply (docx_never_calls_engine demo_platform demo_settings demo_bytes
           "notes.DOCX" "generic" None empty_world).
  reflexivity.
Defined.

Lemma colliding_names_overwrite_witness :
  ∃ resp1 w1 resp2 w2,
    process_file demo_platform demo_settings demo_bytes "a@b.docx" "generic"
                 (Some false) empty_world = (Ok resp1, w1)
    ∧ process_file demo_platform demo_settings other_bytes "a#b.docx"
                   "generic" (Some false) w1 = (Ok resp2, w2)
    ∧ store w2 = <[sanitize_filename "a#b.docx" := other_bytes]> ∅
    ∧ store w2 !! sanitize_filename "a@b.docx" = Some other_bytes.
Proof.
  eexists _, _, _, _. split; [vm_compute; reflexivity |].
  split; [vm_compute; reflexivity |].
  eapply (colliding_names_overwrite demo_platform demo_settings "a@b.docx"
            "a#b.docx" demo_bytes other_bytes "generic" "generic"
            (Some false) (Some false) empty_world);
    [reflexivity | reflexivity | reflexivity | vm_compute; reflexivity
    | vm_compute; reflexivity].
Defined.

Lemma delete_if_exists_never_raises_witness :
  ∃ w', delete_if_exists read_only_platform "scan.docx" stale_world
        = (Ok (), w')
        ∧ store w' !! "other.pdf" = store stale_world !! "other.pdf".
Proof.
  destruct (delete_if_exists_never_raises read_only_platform "scan.docx"
              stale_world) as (w' & Hrun & _ & Hother & _).
  exists w'. split; [exact Hrun |]. apply Hother. discriminate.
Defined.

Lemma save_then_delete_witness :
  ∃ path w1 w2,
    save_unique_by_name demo_platform demo_settings "dir/scan.docx" demo_bytes
                        empty_world = (Ok path, w1)
    ∧ path = "uploads/scan.docx"
    ∧ delete_if_exists demo_platform "dir/scan.docx" w1 = (Ok (), w2)
    ∧ store w2 = delete (sanitize_filename "dir/scan.docx") ∅.
Proof.
  destruct (save_unique_by_name demo_platform demo_settings "dir/scan.docx"
              demo_bytes empty_world) as [[path | e] w1] eqn:Hsave;
    [| vm_compute in Hsave; discriminate Hsave].
  destruct (save_then_delete demo_platform demo_settings "dir/scan.docx"
              demo_bytes empty_world path w1 Hsave eq_refl)
    as (Hpath & _ & w2 & Hdelete & Hstore).
  exists path, w1, w2. split; [reflexivity |].
  split; [apply Hpath; [reflexivity | reflexivity | discriminate] |].
  split; [exact Hdelete | exact Hstore].
Defined.

Lemma extract_text_bad_request_witness :
  (extract_text demo_platform demo_settings
                {| upload_filename := Some "empty.pdf"; upload_contents := [] |}
                "generic" None empty_world)
  = (HTTPException 400 "Empty file", empty_world)
  ∧ (extract_text demo_platform demo_settings
                  {| upload_filename := None; upload_contents := demo_bytes |}
                  "generic" None empty_world).1
    = HTTPException 400 "Unsupported file type: .unknown".
Proof.
  split.
  - apply (proj1 (extract_text_bad_request demo_platform demo_settings
                    {| upload_filename := Some "empty.pdf";
                       upload_contents := [] |}
                    "generic" None empty_world)).
    reflexivity.
  - apply (proj1 (proj2 (proj2 (extract_text_bad_request demo_platform
                                  demo_settings
                                  {| upload_filename := None;
                                     upload_contents := demo_bytes |}
                                  "generic" None empty_world))));
      [discriminate | vm_compute; discriminate
      | apply (bool_decide_unpack _); vm_compute; exact I].
Defined.

Lemma batch_of_one_agrees_witness :
  ∃ resp w',
    extract_batch demo_platform demo_settings
                  [{| upload_filename := Some "a.docx";
                      upload_contents := demo_bytes |}]
                  "generic" (Some "off") empty_world = (Http200 resp, w')
    ∧ w' = (extract_text demo_platform demo_settings
                         {| upload_filename := Some "a.docx";
                            upload_contents := demo_bytes |}
                         "generic" (Some "off") empty_world).2
    ∧ length (results resp) = 1%nat.
Proof.
  eexists _, _. split.
  - apply (batch_of_one_agrees demo_platform demo_settings
             {| upload_filename := Some "a.docx";
                upload_contents := demo_bytes |}
             "generic" (Some "off") empty_world).
    vm_compute. discriminate.
  - split; reflexivity.
Defined.

Lemma batch_extracts_once_witness :
  ∃ resp w' a b,
    extract_batch demo_platform demo_settings demo_pair "generic" None
                  empty_world = (Http200 resp, w')
    ∧ results resp !! 0%nat = Some a ∧ results resp !! 1%nat = Some b
    ∧ filename a ≠ filename b ∧ file_hash a ≠ file_hash b.
Proof.
  destruct (extract_batch demo_platform demo_settings demo_pair "generic" None
              empty_world) as [[resp | code detail] w'] eqn:Hrun;
    [| vm_compute in Hrun; discriminate Hrun].
  assert (Hres : ∃ a b, results resp !! 0%nat = Some a
                        ∧ results resp !! 1%nat = Some b
                        ∧ is_Some (response a) ∧ is_Some (response b)).
  { vm_compute in Hrun. injection Hrun as <- _.
    eexists _, _. split; [reflexivity |]. split; [reflexivity |].
    split; eexists; reflexivity. }
  destruct Hres as (a & b & Ha & Hb & Hra & Hrb).
  exists resp, w', a, b. split; [reflexivity |]. split; [exact Ha |].
  split; [exact Hb |].
  apply (batch_extracts_once demo_platform demo_settings demo_pair "generic"
           None empty_world resp w' 0 1 a b Hrun); [lia | done..].
Defined.

Lemma batch_item_shapes_witness :
  ∃ resp w' item,
    extract_batch demo_platform demo_settings demo_batch "generic" None
                  empty_world = (Http200 resp, w')
    ∧ results resp !! 2%nat = Some item
    ∧ filename item = "b.docx"
    ∧ skipped_duplicate item = true
    ∧ reason item = Some "duplicate_content_in_batch"
    ∧ file_hash item = "37-80-68-70".
Proof.
  destruct (extract_batch demo_platform demo_settings demo_batch "generic" None
              empty_world) as [[resp | code detail] w'] eqn:Hrun;
    [| vm_compute in Hrun; discriminate Hrun].
  assert (∃ item, results resp !! 2%nat = Some item
                  ∧ reason item = Some "duplicate_content_in_batch")
    as (item & Hitem & Hreason).
  { vm_compute in Hrun. injection Hrun as <- _. eexists.
    split; reflexivity. }
  exists resp, w', item. split; [reflexivity |]. split; [exact Hitem |].
  destruct (batch_item_shapes demo_platform demo_settings demo_batch "generic"
              None empty_world resp w' 2 item Hrun Hitem)
    as (f & Hf & Hname & Hshape).
  injection Hf as <-. split; [exact Hname |].
  destruct Hshape as [(msg & _ & _ & _ & Hr & _)
                     | [(_ & Hr & _) | [(Hs & _ & Hh & _)
                     | (r & _ & _ & _ & Hr & _)]]];
    rewrite Hreason in *; try discriminate Hr.
  split; [exact Hs |]. split; [reflexivity | exact Hh].
Defined.

Lemma batch_store_frame_witness :
  store (extract_batch demo_platform demo_settings demo_batch "generic"
                       (Some "false") stale_world).2 !! "scan.docx"
  = Some other_bytes.
Proof.
  refine (eq_trans (batch_store_frame demo_platform demo_settings demo_batch
                      "generic" (Some "false") stale_world "scan.docx" _ _) _).
  - reflexivity.
  - intros f Hf _.
    repeat (apply elem_of_cons in Hf as [-> | Hf]; [vm_compute; discriminate |]).
    by apply elem_of_nil in Hf.
  - reflexivity.
Defined.

Lemma extract_batch_ceiling_witness :
  (extract_batch demo_platform demo_settings
                 (replicate 21 {| upload_filename := Some "a.docx";
                                  upload_contents := demo_bytes |})
                 "generic" None empty_world).2 = empty_world
  ∧ ∃ resp,
      (extract_batch demo_platform demo_settings demo_batch "generic" None
                     empty_world).1 = Http200 resp
      ∧ length (results resp) = 5%nat.
Proof.
  split.
  - rewrite (proj1 (extract_batch_ceiling demo_platform demo_settings
                      (replicate 21 {| upload_filename := Some "a.docx";
                                       upload_contents := demo_bytes |})
                      "generic" None empty_world)); [reflexivity |].
    vm_compute. reflexivity.
  - destruct (proj2 (extract_batch_ceiling demo_platform demo_settings
                       demo_batch "generic" None empty_world))
      as (resp & Hrun & _ & _ & _ & _ & Hlen);
      [vm_compute; discriminate |].
    exists resp. split; [exact Hrun | exact Hlen].
Defined.
